(** * FairShare document parsing service (python-service/main.py)

    A shallow embedding of the two parsing handlers, the two health
    handlers and the Python library calls they are built from, followed by
    the properties of the request/response contract.

    Conventions.
    - A Python [str] is a [string]; its characters are ASCII for the purpose
      of [str.lower] (characters at or above 128 are left alone and make
      [base64.b64decode] reject the string, as non-ASCII text does).
    - [bytes] values are lists of integers, one per byte.
    - Paths follow [pathlib.PurePosixPath] (the service runs under uvicorn on
      a POSIX host) with the [suffix] property of CPython 3.8 to 3.13.
    - An exception is an instance of Python's [Exception] class; that is what
      the handlers' [except Exception] clauses match.  Interpreter signals
      outside that class (KeyboardInterrupt, SystemExit) are not modelled.
    - Everything outside the process (upload stream, temporary directory,
      Docling converter) is an [Env] of outcomes; the handlers thread a
      [World] made of the file system and the log of the calls made, each
      with the exception it raised if any.  The converter reads the file it
      is given and leaves the file system alone. *)

From Stdlib Require Import ZArith Ascii String List Lia.
From stdpp Require Import base option strings pretty gmap.

Open Scope string_scope.
Open Scope Z_scope.

(** ** Python strings and pathlib *)

Module Py.

(** [c.lower()] on one ASCII character. *)
Definition lower_char (c : ascii) : ascii :=
  let n := nat_of_ascii c in
  if (65 <=? n)%nat && (n <=? 90)%nat then ascii_of_nat (n + 32) else c.

(** [s.lower()] *)
Fixpoint lower (s : string) : string :=
  match s with
  | EmptyString => EmptyString
  | String c r => String (lower_char c) (lower r)
  end.

(** [s.rfind(c)]: the highest index of [c] in [s], or [-1]. *)
Fixpoint rfind (c : ascii) (s : string) : Z :=
  match s with
  | EmptyString => -1
  | String a r =>
      let i := rfind c r in
      if 0 <=? i then 1 + i
      else if Ascii.eqb a c then 0 else -1
  end.

(** [s[i:]] for a non-negative [i]. *)
Fixpoint slice_from (i : nat) (s : string) : string :=
  match i, s with
  | O, _ => s
  | S k, String _ r => slice_from k r
  | S _, EmptyString => EmptyString
  end.

(** [len(s)] *)
Definition len (s : string) : Z := Z.of_nat (String.length s).

(** [s.split(sep)] for a one-character separator. *)
Fixpoint split (sep : ascii) (s : string) : list string :=
  match s with
  | EmptyString => [EmptyString]
  | String a r =>
      if Ascii.eqb a sep then EmptyString :: split sep r
      else match split sep r with
           | h :: t => String a h :: t
           | [] => [String a EmptyString]
           end
  end.

(** The components pathlib keeps when it parses a POSIX path: empty
    components and single dots are dropped. *)
Definition is_component (p : string) : bool :=
  negb (String.eqb p "") && negb (String.eqb p ".").

Definition components (path : string) : list string :=
  List.filter is_component (split "/"%char path).

(** [PurePath.name]: the final component, or the empty string. *)
Definition name (path : string) : string :=
  List.last (components path) "".

(** [PurePath.suffix]:
    [i = name.rfind('.'); name[i:] if 0 < i < len(name) - 1 else ''] *)
Definition suffix (path : string) : string :=
  let nm := name path in
  let i := rfind "."%char nm in
  if (0 <? i) && (i <? len nm - 1) then slice_from (Z.to_nat i) nm else "".

(** [a or b] on strings: the empty string is falsy. *)
Definition or_str (a b : string) : string :=
  if String.eqb a "" then b else a.

(** [o or ""] on an optional string ([None] is falsy too). *)
Definition or_empty (o : option string) : string :=
  match o with Some s => s | None => "" end.

(** The code points of a string, as [s.encode('ascii')] yields them. *)
Fixpoint codes (s : string) : list Z :=
  match s with
  | EmptyString => []
  | String c r => Z.of_nat (nat_of_ascii c) :: codes r
  end.

(** [s.startswith(p)] *)
Definition startswith (p s : string) : bool := String.prefix p s.

End Py.

(** ** Results of library calls *)

(** A call either returns a value or raises an [Exception]; [msg] is what
    [str(e)] gives for the raised exception. *)
Inductive res (A : Type) : Type :=
| Val (a : A)
| Err (msg : string).
Arguments Val {A} a.
Arguments Err {A} msg.

(** ** Values of a decoded JSON body *)

#[local] Set Warnings "-register-all".
Inductive pyval : Type :=
| PNone
| PBool (b : bool)
| PInt (z : Z)
| PFloat (literal : string)
| PStr (s : string)
| PList (l : list pyval)
| PDict (d : list (string * pyval)).
#[local] Set Warnings "register-all".

(** [type(v).__name__] *)
Definition type_name (v : pyval) : string :=
  match v with
  | PNone => "NoneType"
  | PBool _ => "bool"
  | PInt _ => "int"
  | PFloat _ => "float"
  | PStr _ => "str"
  | PList _ => "list"
  | PDict _ => "dict"
  end.

(** [Path(v)]: [pathlib] accepts a [str] only (among JSON values) and raises
    [TypeError] otherwise (message of CPython 3.8 to 3.11). *)
Definition Path (v : pyval) : res string :=
  match v with
  | PStr s => Val s
  | _ => Err ("expected str, bytes or os.PathLike object, not " +:+ type_name v)
  end.

(** ** base64.b64decode

    [base64.b64decode(s)] with its default [validate=False]: the argument is
    turned into bytes and handed to [binascii.a2b_base64], whose loop
    (CPython 3.11 and later, non-strict mode) is transcribed here. *)

Module Base64.

Definition BASE64_PAD : Z := 61.

(** [table_a2b_base64]: the value of a base64 digit, 64 or more for a byte
    outside the alphabet. *)
Definition table_a2b_base64 (c : Z) : Z :=
  if (65 <=? c) && (c <=? 90) then c - 65
  else if (97 <=? c) && (c <=? 122) then c - 97 + 26
  else if (48 <=? c) && (c <=? 57) then c - 48 + 52
  else if c =? 43 then 62
  else if c =? 47 then 63
  else 255.

(** A store into an [unsigned char]. *)
Definition to_uchar (x : Z) : Z := Z.land x 255.

Definition end_of_data (quad_pos : Z) (bin_data : list Z) : res (list Z) :=
  if quad_pos =? 0 then Val bin_data
  else if quad_pos =? 1 then
    Err ("Invalid base64-encoded string: number of data characters ("
         +:+ pretty (Z.of_nat (List.length bin_data) / 3 * 4 + 1)
         +:+ ") cannot be 1 more than a multiple of 4")
  else Err "Incorrect padding".

Fixpoint a2b_loop (ascii_data : list Z) (quad_pos leftchar pad_count : Z)
    (bin_data : list Z) : res (list Z) :=
  match ascii_data with
  | [] => end_of_data quad_pos bin_data
  | this_ch :: rest =>
      if this_ch =? BASE64_PAD then
        if 2 <=? quad_pos then
          if 4 <=? quad_pos + (pad_count + 1) then Val bin_data
          else a2b_loop rest quad_pos leftchar (pad_count + 1) bin_data
        else a2b_loop rest quad_pos leftchar pad_count bin_data
      else
        let this_ch := table_a2b_base64 this_ch in
        if 64 <=? this_ch then a2b_loop rest quad_pos leftchar pad_count bin_data
        else if quad_pos =? 0 then
          a2b_loop rest 1 this_ch 0 bin_data
        else if quad_pos =? 1 then
          a2b_loop rest 2 (Z.land this_ch 15) 0
            (bin_data ++ [to_uchar (Z.lor (Z.shiftl leftchar 2) (Z.shiftr this_ch 4))])
        else if quad_pos =? 2 then
          a2b_loop rest 3 (Z.land this_ch 3) 0
            (bin_data ++ [to_uchar (Z.lor (Z.shiftl leftchar 4) (Z.shiftr this_ch 2))])
        else
          a2b_loop rest 0 0 0
            (bin_data ++ [to_uchar (Z.lor (Z.shiftl leftchar 6) this_ch)])
  end.

Definition a2b_base64 (data : list Z) : res (list Z) :=
  a2b_loop data 0 0 0 [].

(** [_bytes_from_decode_data] followed by [binascii.a2b_base64]. *)
Definition b64decode (s : pyval) : res (list Z) :=
  match s with
  | PStr t =>
      if forallb (fun c => c <? 128) (Py.codes t) then a2b_base64 (Py.codes t)
      else Err "string argument should contain only ASCII characters"
  | _ =>
      Err ("argument should be a bytes-like object or ASCII string, not '"
           +:+ type_name s +:+ "'")
  end.

End Base64.

(** ** Exceptions, the outside world and the handler monad *)

Inductive exc : Type :=
| HTTPException (status_code : Z) (detail : string)
| Exception (msg : string).

(** [str(e)].  For [HTTPException] this is Starlette's [__str__]; no call
    made inside the handlers' [try] blocks raises one. *)
Definition exc_str (e : exc) : string :=
  match e with
  | HTTPException c d => pretty c +:+ ": " +:+ d
  | Exception m => m
  end.

(** Docling's converter as [get_converter] configures it. *)
Record PdfPipelineOptions : Type := { do_ocr : bool; do_table_structure : bool }.

Inductive InputFormat : Type := PDF | IMAGE.

Inductive FormatOption : Type :=
| PdfFormatOption (pipeline_options : PdfPipelineOptions)
| ImageFormatOption.

Record DocumentConverter : Type := { format_options : list (InputFormat * FormatOption) }.

(** The document object returned by [convert], reduced to the one capability
    the handlers use. *)
Record Document : Type := { export_to_markdown : res string }.

(** What the outside world does during one request. *)
Record Env : Type := {
  read_error : option string;               (* [await file.read()] raises *)
  tmp_stem : string;                        (* directory and random part of the temporary name *)
  create_error : string -> option string;   (* [NamedTemporaryFile(suffix=...)] raises *)
  write_error : option string;              (* [tmp_file.write] or the closing flush raises *)
  converter_error : option string;          (* building the converter raises *)
  convert : DocumentConverter -> string -> option (list Z) -> res Document;
                                            (* [converter.convert(path)] on the file's bytes *)
  unlink_error : option string              (* [os.unlink] raises *)
}.

(** The calls a request makes, logged in the order they are made, each with
    the message of the exception it raised, if it raised one. *)
Inductive event : Type :=
| EvDecode                                   (* base64.b64decode *)
| EvPath                                     (* Path(filename) *)
| EvRead                                     (* await file.read() *)
| EvCreate (path : string)                   (* NamedTemporaryFile *)
| EvWrite (path : string) (content : list Z) (* tmp_file.write and close *)
| EvGetConverter                             (* get_converter() *)
| EvConvert (path : string)                  (* converter.convert *)
| EvExport                                   (* export_to_markdown *)
| EvUnlink (path : string).                  (* os.unlink *)

Record World : Type := {
  fs : gmap string (list Z);   (* files by path *)
  calls : list (event * option string)
}.

Definition log (ev : event) (raised : option string) (w : World) : World :=
  {| fs := fs w; calls := calls w ++ [(ev, raised)] |}.

Definition set_fs (f : gmap string (list Z)) (w : World) : World :=
  {| fs := f; calls := calls w |}.

Inductive outcome (A : Type) : Type :=
| Return (a : A)
| Raise (e : exc).
Arguments Return {A} a.
Arguments Raise {A} e.

Definition M (A : Type) : Type := Env -> World -> outcome A * World.

Definition ret {A} (a : A) : M A := fun _ w => (Return a, w).

Definition raise {A} (e : exc) : M A := fun _ w => (Raise e, w).

Definition bind {A B} (m : M A) (k : A -> M B) : M B :=
  fun env w =>
    match m env w with
    | (Return a, w1) => k a env w1
    | (Raise e, w1) => (Raise e, w1)
    end.

Declare Scope py_scope.
Delimit Scope py_scope with py.
Notation "'let*' x ':=' c1 'in' c2" := (bind c1 (fun x => c2))
  (at level 10, x name, c1 at level 100, c2 at level 200) : py_scope.
Notation "'perform' c1 'then' c2" := (bind c1 (fun _ => c2))
  (at level 10, c1 at level 100, c2 at level 200) : py_scope.
Open Scope py_scope.

(** [try: body except Exception as e: handler(e)] *)
Definition try_except {A} (body : M A) (handler : exc -> M A) : M A :=
  fun env w =>
    match body env w with
    | (Return a, w1) => (Return a, w1)
    | (Raise e, w1) => handler e env w1
    end.

(** [try: body finally: cleanup].  The cleanup always runs; when it raises,
    its exception replaces the pending return value or exception. *)
Definition try_finally {A} (body : M A) (cleanup : M unit) : M A :=
  fun env w =>
    let '(o, w1) := body env w in
    match cleanup env w1 with
    | (Return _, w2) => (o, w2)
    | (Raise e, w2) => (Raise e, w2)
    end.

(** A library call whose outcome is computed in the process. *)
Definition lift {A} (ev : event) (r : res A) : M A :=
  fun _ w =>
    match r with
    | Val a => (Return a, log ev None w)
    | Err m => (Raise (Exception m), log ev (Some m) w)
    end.

(** An external call that may fail: it raises if the environment says so. *)
Definition attempt (ev : event) (failure : Env -> option string) : M unit :=
  fun env w =>
    match failure env with
    | Some m => (Raise (Exception m), log ev (Some m) w)
    | None => (Return tt, log ev None w)
    end.

(** ** The external calls of the handlers *)

Record UploadFile : Type := {
  content_type : option string;
  filename : option string;
  body : list Z
}.

(** [await file.read()] *)
Definition file_read (file : UploadFile) : M (list Z) :=
  perform attempt EvRead read_error then ret (body file).

(** Entering [with tempfile.NamedTemporaryFile(delete=False, suffix=suffix)]:
    an empty file with a fresh name ending in [suffix] appears. *)
Definition tmp_create (suffix : string) : M string :=
  fun env w =>
    let path := tmp_stem env +:+ suffix in
    match create_error env suffix with
    | Some m => (Raise (Exception m), log (EvCreate path) (Some m) w)
    | None => (Return path, log (EvCreate path) None (set_fs (<[path := []]> (fs w)) w))
    end.

(** [tmp_file.write(content)] and the close on leaving the [with] block.
    Because of [delete=False] the file stays when the write raises. *)
Definition tmp_write (path : string) (content : list Z) : M unit :=
  fun env w =>
    match write_error env with
    | Some m => (Raise (Exception m), log (EvWrite path content) (Some m) w)
    | None =>
        (Return tt, log (EvWrite path content) None (set_fs (<[path := content]> (fs w)) w))
    end.

(** The whole [with] block; its value is [tmp_file.name]. *)
Definition named_temporary_file (suffix : string) (content : list Z) : M string :=
  let* tmp_path := tmp_create suffix in
  perform tmp_write tmp_path content then
  ret tmp_path.

(** [get_converter()]: OCR and table structure switched on for PDF, image
    input enabled. *)
Definition get_converter : M DocumentConverter :=
  perform attempt EvGetConverter converter_error then
  let pdf_pipeline_options := {| do_ocr := true; do_table_structure := true |} in
  ret {| format_options :=
           [(PDF, PdfFormatOption pdf_pipeline_options); (IMAGE, ImageFormatOption)] |}.

(** [converter.convert(tmp_path)] *)
Definition converter_convert (converter : DocumentConverter) (tmp_path : string) : M Document :=
  fun env w =>
    lift (EvConvert tmp_path) (convert env converter tmp_path (fs w !! tmp_path)) env w.

(** [result.document.export_to_markdown()] *)
Definition document_export (result : Document) : M string :=
  lift EvExport (export_to_markdown result).

(** [os.unlink(tmp_path)] *)
Definition os_unlink (tmp_path : string) : M unit :=
  fun env w =>
    match unlink_error env with
    | Some m => (Raise (Exception m), log (EvUnlink tmp_path) (Some m) w)
    | None =>
        match fs w !! tmp_path with
        | Some _ =>
            (Return tt, log (EvUnlink tmp_path) None (set_fs (delete tmp_path (fs w)) w))
        | None =>
            let m := "[Errno 2] No such file or directory: '" +:+ tmp_path +:+ "'" in
            (Raise (Exception m), log (EvUnlink tmp_path) (Some m) w)
        end
    end.

(** ** The service *)

Record ParseResponse : Type := {
  success : bool;
  markdown : option string;
  error : option string
}.

(** [GET /] *)
Definition root : M (list (string * string)) :=
  ret [("status", "healthy"); ("service", "FairShare Document Parser")].

(** [GET /health] *)
Definition health_check : M (list (string * string)) :=
  ret [("status", "ok")].

Definition allowed_types : gmap string string :=
  <["application/pdf" := ".pdf"]>
  (<["image/jpeg" := ".jpg"]>
  (<["image/jpg" := ".jpg"]>
  (<["image/png" := ".png"]> ∅))).

(** [POST /parse] *)
Definition parse_document (file : UploadFile) : M ParseResponse :=
  let content_type := Py.or_empty (content_type file) in
  perform (match allowed_types !! content_type with
       | None =>
           let filename := Py.or_empty (filename file) in
           let ext := Py.lower (Py.suffix filename) in
           if negb (bool_decide (ext ∈ [".pdf"; ".jpg"; ".jpeg"; ".png"]))
           then raise (HTTPException 400
                  ("Unsupported file type: " +:+ content_type +:+ ". Supported: PDF, JPG, PNG"))
           else ret tt
       | Some _ => ret tt
       end) then
  try_except
    (let* content := file_read file in
     let suffix :=
       default (Py.or_str (Py.suffix (Py.or_empty (filename file))) ".pdf")
               (allowed_types !! content_type) in
     let* tmp_path := named_temporary_file suffix content in
     try_finally
       (let* converter := get_converter in
        let* result := converter_convert converter tmp_path in
        let* markdown_content := document_export result in
        ret {| success := true; markdown := Some markdown_content; error := None |})
       (os_unlink tmp_path))
    (fun e =>
       ret {| success := false; markdown := None;
              error := Some ("Failed to parse document: " +:+ exc_str e) |}).

(** [POST /parse-base64]; [data] is the decoded JSON object. *)
Definition parse_document_base64 (data : gmap string pyval) : M ParseResponse :=
  try_except
    (let content_b64 := default (PStr "") (data !! "content") in
     let filename := default (PStr "document.pdf") (data !! "filename") in
     let* content := lift EvDecode (Base64.b64decode content_b64) in
     let* path := lift EvPath (Path filename) in
     let ext := Py.or_str (Py.lower (Py.suffix path)) ".pdf" in
     let* tmp_path := named_temporary_file ext content in
     try_finally
       (let* converter := get_converter in
        let* result := converter_convert converter tmp_path in
        let* markdown_content := document_export result in
        ret {| success := true; markdown := Some markdown_content; error := None |})
       (os_unlink tmp_path))
    (fun e =>
       ret {| success := false; markdown := None;
              error := Some ("Failed to parse document: " +:+ exc_str e) |}).

(** The status line the framework sends for a handler outcome. *)
Definition http_status {A} (o : outcome A) : Z :=
  match o with
  | Return _ => 200
  | Raise (HTTPException c _) => c
  | Raise (Exception _) => 500
  end.


(** ** Vocabulary of the contract *)

Definition error_prefix : string := "Failed to parse document: ".

Definition failure (msg : string) : ParseResponse :=
  {| success := false; markdown := None; error := Some (error_prefix +:+ msg) |}.

Definition succeeded (md : string) : ParseResponse :=
  {| success := true; markdown := Some md; error := None |}.

(** The invariant of the response envelope, with its two consequences. *)
Definition envelope_invariant (r : ParseResponse) : Prop :=
  (success r = true -> is_Some (markdown r) /\ error r = None) /\
  (success r = false -> is_Some (error r) /\ markdown r = None) /\
  ~ (is_Some (markdown r) /\ is_Some (error r)) /\
  ~ (markdown r = None /\ error r = None).

(** The declared content types and the filename extensions that pass
    validation. *)
Definition declared_types : list string :=
  ["application/pdf"; "image/jpeg"; "image/jpg"; "image/png"].

Definition accepted_extensions : list string := [".pdf"; ".jpg"; ".jpeg"; ".png"].

(** The calls the failure policy names: base64 decoding, file writing,
    conversion and Markdown export. *)
Definition policy_stage (ev : event) : bool :=
  match ev with
  | EvDecode | EvWrite _ _ | EvConvert _ | EvExport => true
  | _ => false
  end.

(** No removal of a temporary file raised. *)
Definition unlink_clean (l : list (event * option string)) : Prop :=
  forall p m, ~ In (EvUnlink p, Some m) l.

(** The payload was written to [p] without an exception. *)
Definition write_clean (p : string) (l : list (event * option string)) : Prop :=
  forall c m, ~ In (EvWrite p c, Some m) l.

(** The extension of the transient file of an upload, in the words of the
    contract: the allow-list mapping of a recognised content type, otherwise
    the filename's extension, [.pdf] when there is none. *)
Definition upload_extension (ct fn : string) : string :=
  if String.eqb ct "application/pdf" then ".pdf"
  else if String.eqb ct "image/jpeg" then ".jpg"
  else if String.eqb ct "image/jpg" then ".jpg"
  else if String.eqb ct "image/png" then ".png"
  else if String.eqb (Py.suffix fn) "" then ".pdf"
  else Py.suffix fn.

(** The extension of the transient file of a base64 request, in the words of
    the contract: the filename's extension, [.pdf] when there is none. *)
Definition base64_extension_as_claimed (fn : string) : string :=
  if String.eqb (Py.suffix fn) "" then ".pdf" else Py.suffix fn.

(** The same with the extension in lower case, which is what the handler
    passes to [NamedTemporaryFile]. *)
Definition base64_extension (fn : string) : string :=
  if String.eqb (Py.suffix fn) "" then ".pdf" else Py.lower (Py.suffix fn).

(** What a handler answers after a call inside its [try] block raised [m]:
    a failure envelope carrying [m], unless the removal of the temporary
    file raised afterwards, whose message is then reported. *)
Definition reported (m : string) (x : outcome ParseResponse * World) : Prop :=
  (exists r, x.1 = Return r) /\
  (unlink_clean (calls x.2) -> x.1 = Return (failure m)) /\
  (forall p m', In (EvUnlink p, Some m') (calls x.2) -> x.1 = Return (failure m')).

(** The converter every request builds. *)
Definition configured_converter : DocumentConverter :=
  {| format_options :=
       [(PDF, PdfFormatOption {| do_ocr := true; do_table_structure := true |});
        (IMAGE, ImageFormatOption)] |}.

(** The world at the start of a request: some file system, nothing logged. *)
Definition fresh_world (f : gmap string (list Z)) : World :=
  {| fs := f; calls := [] |}.

(** [m] can only return values satisfying [P]. *)
Definition returns_only {A} (m : M A) (P : A -> Prop) : Prop :=
  forall env w a w', m env w = (Return a, w') -> P a.

(** [m] can only raise exceptions satisfying [Q]. *)
Definition raises_only {A} (m : M A) (Q : exc -> Prop) : Prop :=
  forall env w e w', m env w = (Raise e, w') -> Q e.

(** ** Sample requests and environments *)

Definition sample_document : Document := {| export_to_markdown := Val "# Invoice" |}.

(** Every external call succeeds. *)
Definition env_ok : Env :=
  {| read_error := None;
     tmp_stem := "/tmp/tmpk3f9a2";
     create_error := fun _ => None;
     write_error := None;
     converter_error := None;
     convert := fun _ _ _ => Val sample_document;
     unlink_error := None |}.

(** The disk fills up while the payload is written. *)
Definition env_write_fails : Env :=
  {| read_error := None;
     tmp_stem := "/tmp/tmpk3f9a2";
     create_error := fun _ => None;
     write_error := Some "[Errno 28] No space left on device";
     converter_error := None;
     convert := fun _ _ _ => Val sample_document;
     unlink_error := None |}.

(** The converter rejects the file. *)
Definition env_convert_fails : Env :=
  {| read_error := None;
     tmp_stem := "/tmp/tmpk3f9a2";
     create_error := fun _ => None;
     write_error := None;
     converter_error := None;
     convert := fun _ _ _ => Err "File format not allowed";
     unlink_error := None |}.

(** Conversion and export succeed, the removal of the file does not. *)
Definition env_unlink_fails : Env :=
  {| read_error := None;
     tmp_stem := "/tmp/tmpk3f9a2";
     create_error := fun _ => None;
     write_error := None;
     converter_error := None;
     convert := fun _ _ _ => Val sample_document;
     unlink_error := Some "[Errno 13] Permission denied" |}.

(** The converter rejects the file and the removal fails as well. *)
Definition env_convert_and_unlink_fail : Env :=
  {| read_error := None;
     tmp_stem := "/tmp/tmpk3f9a2";
     create_error := fun _ => None;
     write_error := None;
     converter_error := None;
     convert := fun _ _ _ => Err "File format not allowed";
     unlink_error := Some "[Errno 13] Permission denied" |}.

Definition pdf_upload : UploadFile :=
  {| content_type := Some "application/pdf"; filename := Some "invoice.pdf";
     body := [37; 80; 68; 70] |}.

(** No declared type, the extension decides. *)
Definition untyped_upload : UploadFile :=
  {| content_type := None; filename := Some "invoice.pdf"; body := [37; 80; 68; 70] |}.

Definition text_upload : UploadFile :=
  {| content_type := Some "text/plain"; filename := Some "notes.txt"; body := [104; 105] |}.

Definition b64_request (content name : string) : gmap string pyval :=
  <["content" := PStr content]> (<["filename" := PStr name]> ∅).

(** ** Further vocabulary: what a request touches *)

(** The environment with another converter behaviour. *)
Definition with_convert (env : Env)
    (c : DocumentConverter -> string -> option (list Z) -> res Document) : Env :=
  {| read_error := read_error env;
     tmp_stem := tmp_stem env;
     create_error := create_error env;
     write_error := write_error env;
     converter_error := converter_error env;
     convert := c;
     unlink_error := unlink_error env |}.

(** No call of the request raised. *)
Definition all_calls_clean (l : list (event * option string)) : Prop :=
  Forall (fun c => c.2 = None) l.

(** The calls that raised, in order. *)
Definition raised_calls (l : list (event * option string)) : list (event * option string) :=
  List.filter (fun c => match c.2 with Some _ => true | None => false end) l.

(** Within a group of four digits, what the digits read so far have paid
    for beyond the bytes already emitted, in quarters of a byte. *)
Definition quad_credit (quad_pos : Z) : Z :=
  if quad_pos =? 0 then 0 else if quad_pos =? 1 then 3 else if quad_pos =? 2 then 2 else 1.

(** [c in s] for a character. *)
Fixpoint contains (c : ascii) (s : string) : bool :=
  match s with
  | EmptyString => false
  | String a r => Ascii.eqb a c || contains c r
  end.

(** An extension as it can be appended to a file name: a dot followed by at
    least one character, with no further dot and no path separator. *)
Definition plain_extension (e : string) : Prop :=
  exists r, e = String "."%char r /\ r <> "" /\
            contains "."%char r = false /\ contains "/"%char r = false.

(** The ASCII characters [binascii.a2b_base64] skips: everything outside the
    base64 alphabet except the padding sign. *)
Definition skipped_by_decoder (c : Z) : bool :=
  (c <? 128) && negb (c =? Base64.BASE64_PAD) && (64 <=? Base64.table_a2b_base64 c).

(** A string without the characters the decoder skips. *)
Fixpoint without_skipped (s : string) : string :=
  match s with
  | EmptyString => EmptyString
  | String c r =>
      if skipped_by_decoder (Z.of_nat (nat_of_ascii c)) then without_skipped r
      else String c (without_skipped r)
  end.

(** An upload with line breaks in its base64 text, and a request whose
    filename is not a string. *)
Definition wrapped_request : gmap string pyval :=
  b64_request ("aG" +:+ String "010"%char "k=") "invoice.pdf".

Definition numeric_filename_request : gmap string pyval :=
  <["content" := PStr "aGk="]> (<["filename" := PInt 7]> ∅).

(** A typed upload whose filename says something else. *)
Definition mislabelled_upload : UploadFile :=
  {| content_type := Some "image/png"; filename := Some "notes.txt"; body := [137; 80] |}.

(** A converter that only works with OCR switched on, on .pdf files holding
    the four bytes of the sample upload. *)
Definition picky_convert (k : DocumentConverter) (p : string) (c : option (list Z)) :
    res Document :=
  match format_options k, c with
  | (PDF, PdfFormatOption o) :: _, Some [37; 80; 68; 70] =>
      if do_ocr o && String.eqb p "/tmp/tmpk3f9a2.pdf" then Val sample_document
      else Err "unsupported"
  | _, _ => Err "unsupported"
  end.

(** ** Proof automation: running the handlers case by case *)

Ltac unfold_run :=
  cbv beta iota zeta delta
    [parse_document parse_document_base64 try_except try_finally bind ret raise lift
     file_read named_temporary_file tmp_create tmp_write get_converter
     converter_convert document_export os_unlink attempt log set_fs fresh_world negb];
  cbn [fs calls fst snd app];
  rewrite ?lookup_insert_eq; cbn [fs calls fst snd app].

Ltac case_env :=
  match goal with
  | |- context [allowed_types !! ?c] => destruct (allowed_types !! c) eqn:?
  | |- context [bool_decide ?P] => destruct (bool_decide P) eqn:?
  | |- context [Base64.b64decode ?v] => destruct (Base64.b64decode v) eqn:?
  | |- context [Path ?v] => destruct (Path v) eqn:?
  | |- context [read_error ?e] => destruct (read_error e) eqn:?
  | |- context [create_error ?e ?s] => destruct (create_error e s) eqn:?
  | |- context [write_error ?e] => destruct (write_error e) eqn:?
  | |- context [converter_error ?e] => destruct (converter_error e) eqn:?
  | |- context [convert ?e ?k ?p ?c] => destruct (convert e k p c) eqn:?
  | |- context [export_to_markdown ?d] => destruct (export_to_markdown d) eqn:?
  | |- context [unlink_error ?e] => destruct (unlink_error e) eqn:?
  end; unfold_run.

Ltac run_cases := unfold_run; repeat case_env.

(** The same for an environment built with [with_convert]. *)
Ltac simpl_env :=
  cbn [with_convert read_error tmp_stem create_error write_error converter_error
       convert unlink_error].

(** Decide a membership hypothesis on a concrete call log. *)
Ltac in_log :=
  repeat match goal with
  | H : In _ (_ :: _) |- _ => destruct H as [H|H]; [try discriminate H|]
  | H : In _ [] |- _ => destruct H
  end.

(** Membership in the call log of a concrete run. *)
Ltac log_mem := vm_compute; repeat (first [left; reflexivity | right]).

(** Refute a membership in the call log of a concrete run. *)
Ltac log_absent H :=
  vm_compute in H; repeat (destruct H as [H|H]; [discriminate H|]); exact H.

(** * Properties *)

(** ** The library models on known values *)

Example suffix_values :
  Py.suffix "invoice.pdf" = ".pdf" /\ Py.suffix "scans/Bill.JPEG" = ".JPEG" /\
  Py.suffix "archive.tar.gz" = ".gz" /\ Py.suffix ".bashrc" = "" /\
  Py.suffix "notes." = "" /\ Py.suffix "v1.2/readme" = "" /\ Py.suffix "" = "" /\
  Py.suffix "bill.png/" = ".png".
Proof. repeat split. Qed.

Example lower_values : Py.lower ".JPEG" = ".jpeg" /\ Py.lower "a-Z_[09]" = "a-z_[09]".
Proof. split; reflexivity. Qed.

Example b64decode_values :
  Base64.b64decode (PStr "") = Val [] /\
  Base64.b64decode (PStr "aGVsbG8=") = Val [104; 101; 108; 108; 111] /\
  Base64.b64decode (PStr "aGk=!ignored") = Val [104; 105] /\
  Base64.b64decode (PStr "aGk") = Err "Incorrect padding" /\
  Base64.b64decode (PStr "a") =
    Err "Invalid base64-encoded string: number of data characters (1) cannot be 1 more than a multiple of 4" /\
  Base64.b64decode PNone =
    Err "argument should be a bytes-like object or ASCII string, not 'NoneType'".
Proof. repeat split; vm_compute; reflexivity. Qed.

Lemma to_uchar_range x : 0 <= Base64.to_uchar x < 256.
Proof.
  unfold Base64.to_uchar. change 255 with (Z.ones 8).
  rewrite Z.land_ones by lia. apply Z.mod_pos_bound. lia.
Qed.

(** The decoder only ever emits bytes. *)
Lemma a2b_loop_bytes data :
  forall quad_pos leftchar pad_count bin_data out,
    Forall (fun b => 0 <= b < 256) bin_data ->
    Base64.a2b_loop data quad_pos leftchar pad_count bin_data = Val out ->
    Forall (fun b => 0 <= b < 256) out.
Proof.
  induction data as [|c rest IH]; intros q l pc acc out Hacc; cbn.
  - unfold Base64.end_of_data.
    destruct (q =? 0); [intros [= <-]; exact Hacc|].
    destruct (q =? 1); discriminate.
  - assert (Hsnoc : forall x, Forall (fun b => 0 <= b < 256) (acc ++ [Base64.to_uchar x])).
    { intros x. apply Forall_app. split; [exact Hacc|].
      constructor; [apply to_uchar_range | constructor]. }
    repeat match goal with
    | |- context [if ?b then _ else _] => destruct b
    end; try (intros [= <-]; exact Hacc); eauto.
Qed.

Lemma b64decode_bytes v out :
  Base64.b64decode v = Val out -> Forall (fun b => 0 <= b < 256) out.
Proof.
  destruct v; cbn; try discriminate.
  destruct (forallb _ _); [|discriminate].
  apply a2b_loop_bytes. constructor.
Qed.

(** [get_converter] either raises or yields the one configuration. *)
Lemma get_converter_configured env w c w' :
  get_converter env w = (Return c, w') -> c = configured_converter.
Proof.
  unfold get_converter, bind, attempt, ret.
  destruct (converter_error env); [discriminate|]. intros [= <- _]. reflexivity.
Qed.

(** ** Reasoning rules for the handler monad *)

Section Rules.
Context {A B : Type}.

Lemma returns_only_ret (a : A) (P : A -> Prop) : P a -> returns_only (ret a) P.
Proof. intros HP env w a' w' [= <- _]. exact HP. Qed.

Lemma returns_only_raise (e : exc) (P : A -> Prop) : returns_only (raise e) P.
Proof. intros env w a w' H. discriminate H. Qed.

Lemma returns_only_bind (m : M A) (k : A -> M B) (P : B -> Prop) :
  (forall a, returns_only (k a) P) -> returns_only (bind m k) P.
Proof.
  intros Hk env w b w'. unfold bind.
  destruct (m env w) as [[a|e] w1]; [apply Hk | discriminate].
Qed.

Lemma returns_only_try_finally (body : M A) (cleanup : M unit) (P : A -> Prop) :
  returns_only body P -> returns_only (try_finally body cleanup) P.
Proof.
  intros Hb env w a w'. unfold try_finally.
  destruct (body env w) as [o w1] eqn:Hrun.
  destruct (cleanup env w1) as [[[]|e] w2]; [|discriminate].
  intros [= -> _]. eapply Hb, Hrun.
Qed.

Lemma returns_only_try_except (body : M A) (handler : exc -> M A) (P : A -> Prop) :
  returns_only body P -> (forall e, returns_only (handler e) P) ->
  returns_only (try_except body handler) P.
Proof.
  intros Hb Hh env w a w'. unfold try_except.
  destruct (body env w) as [[a'|e] w1] eqn:Hrun.
  - intros [= <- _]. eapply Hb, Hrun.
  - apply Hh.
Qed.

Lemma raises_only_ret (a : A) (Q : exc -> Prop) : raises_only (ret a) Q.
Proof. intros env w e w' H. discriminate H. Qed.

Lemma raises_only_bind (m : M A) (k : A -> M B) (Q : exc -> Prop) :
  raises_only m Q -> (forall a, raises_only (k a) Q) -> raises_only (bind m k) Q.
Proof.
  intros Hm Hk env w e w'. unfold bind.
  destruct (m env w) as [[a|e'] w1] eqn:Hrun.
  - apply Hk.
  - intros [= <- _]. eapply Hm, Hrun.
Qed.

Lemma raises_only_try_except (body : M A) (handler : exc -> M A) (Q : exc -> Prop) :
  (forall e, raises_only (handler e) Q) -> raises_only (try_except body handler) Q.
Proof.
  intros Hh env w e w'. unfold try_except.
  destruct (body env w) as [[a|e'] w1]; [discriminate | apply Hh].
Qed.
End Rules.

Lemma envelope_invariant_succeeded md : envelope_invariant (succeeded md).
Proof.
  repeat split; cbn; try discriminate; eauto.
  - intros [_ [x Hx]]. discriminate Hx.
  - intros [H _]. discriminate H.
Qed.

Lemma envelope_invariant_failure msg : envelope_invariant (failure msg).
Proof.
  repeat split; cbn; try discriminate; eauto.
  - intros [[x Hx] _]. discriminate Hx.
  - intros [_ H]. discriminate H.
Qed.

(** The shared tail of both handlers returns success envelopes only. *)
Lemma conversion_returns_only tmp_path :
  returns_only
    (try_finally
       (let* converter := get_converter in
        let* result := converter_convert converter tmp_path in
        let* markdown_content := document_export result in
        ret {| success := true; markdown := Some markdown_content; error := None |})
       (os_unlink tmp_path))
    envelope_invariant.
Proof.
  apply returns_only_try_finally.
  do 3 (apply returns_only_bind; intros ?).
  apply returns_only_ret, (envelope_invariant_succeeded _).
Qed.

Lemma parse_document_returns_only file :
  returns_only (parse_document file) envelope_invariant.
Proof.
  unfold parse_document.
  apply returns_only_bind; intros _.
  apply returns_only_try_except.
  - do 2 (apply returns_only_bind; intros ?). apply conversion_returns_only.
  - intros e. apply returns_only_ret, (envelope_invariant_failure _).
Qed.

Lemma parse_document_base64_returns_only data :
  returns_only (parse_document_base64 data) envelope_invariant.
Proof.
  unfold parse_document_base64.
  apply returns_only_try_except.
  - do 3 (apply returns_only_bind; intros ?). apply conversion_returns_only.
  - intros e. apply returns_only_ret, (envelope_invariant_failure _).
Qed.

(** C1. Every ParseResponse returned by the /parse and /parse-base64
    handlers satisfies the envelope invariant: success=true comes with a
    markdown and no error, success=false with an error and no markdown; no
    response carries both a markdown and an error, or neither. *)
Theorem response_envelope_invariant (env : Env) (w : World) (r : ParseResponse) :
  (exists file, (parse_document file env w).1 = Return r) \/
  (exists data, (parse_document_base64 data env w).1 = Return r) ->
  envelope_invariant r.
Proof.
  intros [[file H] | [data H]].
  - destruct (parse_document file env w) as [o w'] eqn:Hrun. cbn in H. subst o.
    eapply parse_document_returns_only, Hrun.
  - destruct (parse_document_base64 data env w) as [o w'] eqn:Hrun. cbn in H. subst o.
    eapply parse_document_base64_returns_only, Hrun.
Qed.

Lemma response_envelope_invariant_witness :
  (exists file, (parse_document file env_ok (fresh_world ∅)).1 = Return (succeeded "# Invoice")) /\
  envelope_invariant (succeeded "# Invoice").
Proof.
  assert (H : exists file,
             (parse_document file env_ok (fresh_world ∅)).1 = Return (succeeded "# Invoice")).
  { exists pdf_upload. vm_compute. reflexivity. }
  split; [exact H|].
  apply (response_envelope_invariant env_ok (fresh_world ∅)). left. exact H.
Defined.

(** ** Validation of uploads *)

Lemma allowed_types_None ct : allowed_types !! ct = None <-> ct ∉ declared_types.
Proof.
  unfold allowed_types, declared_types.
  rewrite !lookup_insert_None, lookup_empty, !not_elem_of_cons.
  rewrite elem_of_nil. intuition congruence.
Qed.


(** A [try] whose handler only returns never raises. *)
Lemma try_except_total {A} (body : M A) (f : exc -> A) env w :
  exists a w', try_except body (fun e => ret (f e)) env w = (Return a, w').
Proof.
  unfold try_except, ret. destruct (body env w) as [[a|e] w1]; eauto.
Qed.

Lemma parse_document_base64_total data env w :
  exists r w', parse_document_base64 data env w = (Return r, w').
Proof. apply try_except_total. Qed.

(** The only exception an upload can end in is the validation's. *)
Lemma parse_document_raises_only file :
  raises_only (parse_document file)
    (fun e => e = HTTPException 400
                    ("Unsupported file type: " +:+ Py.or_empty (content_type file)
                     +:+ ". Supported: PDF, JPG, PNG")).
Proof.
  unfold parse_document. apply raises_only_bind.
  - destruct (allowed_types !! _); [apply raises_only_ret|].
    destruct (bool_decide _); cbn [negb]; [apply raises_only_ret|].
    intros env w e w' [= <- _]. reflexivity.
  - intros _. apply raises_only_try_except. intros e. apply raises_only_ret.
Qed.

(** The rejection is raised exactly under the two nested tests. *)
Lemma parse_document_rejects_iff env w file :
  (parse_document file env w).1 =
    Raise (HTTPException 400
             ("Unsupported file type: " +:+ Py.or_empty (content_type file)
              +:+ ". Supported: PDF, JPG, PNG")) <->
  (Py.or_empty (content_type file) ∉ declared_types) /\
  (Py.lower (Py.suffix (Py.or_empty (filename file))) ∉ accepted_extensions).
Proof.
  rewrite <- allowed_types_None.
  unfold parse_document, bind.
  destruct (allowed_types !! Py.or_empty (content_type file)) as [sfx|] eqn:Hct.
  - cbn. match goal with |- context [try_except ?b ?h env w] =>
      destruct (try_except_total b
        (fun e => {| success := false; markdown := None;
                     error := Some ("Failed to parse document: " +:+ exc_str e) |}) env w)
        as (r & w' & Hr) end.
    rewrite Hr. cbn. split; [discriminate | intros [Hn _]; discriminate Hn].
  - destruct (bool_decide (Py.lower (Py.suffix (Py.or_empty (filename file)))
                             ∈ [".pdf"; ".jpg"; ".jpeg"; ".png"])) eqn:Hext.
    + apply bool_decide_eq_true in Hext.
      cbn. match goal with |- context [try_except ?b ?h env w] =>
        destruct (try_except_total b
          (fun e => {| success := false; markdown := None;
                       error := Some ("Failed to parse document: " +:+ exc_str e) |}) env w)
          as (r & w' & Hr) end.
      rewrite Hr. cbn. split; [discriminate | intros [_ Hn]; contradiction].
    + apply bool_decide_eq_false in Hext. cbn. tauto.
Qed.

Lemma parse_document_raises_rejection env w file e :
  (parse_document file env w).1 = Raise e ->
  e = HTTPException 400
        ("Unsupported file type: " +:+ Py.or_empty (content_type file)
         +:+ ". Supported: PDF, JPG, PNG").
Proof.
  intros He. destruct (parse_document file env w) as [o w'] eqn:Hrun.
  cbn in He. subst o. exact (parse_document_raises_only file env w e w' Hrun).
Qed.

(** An upload that is not rejected gets an envelope. *)
Lemma parse_document_accepts env w file :
  ~ ((Py.or_empty (content_type file) ∉ declared_types) /\
     (Py.lower (Py.suffix (Py.or_empty (filename file))) ∉ accepted_extensions)) ->
  exists r, (parse_document file env w).1 = Return r.
Proof.
  intros Hn. destruct (parse_document file env w).1 as [r|e] eqn:Ho; [eauto|].
  exfalso. apply Hn, (parse_document_rejects_iff env w file).
  rewrite Ho. f_equal. apply (parse_document_raises_rejection env w file), Ho.
Qed.

(** C3. The upload handler raises HTTP 400, with a message naming the
    rejected content type, exactly when the declared content type is not in
    the allow-list and the lower-cased filename extension is not one of
    .pdf, .jpg, .jpeg, .png; that rejection is the only exception the
    handler raises, every other run returns a response envelope. *)
Theorem validation_rejection (env : Env) (w : World) (file : UploadFile) :
  let ct := Py.or_empty (content_type file) in
  let ext := Py.lower (Py.suffix (Py.or_empty (filename file))) in
  let rejection :=
    HTTPException 400 ("Unsupported file type: " +:+ ct +:+ ". Supported: PDF, JPG, PNG") in
  ((parse_document file env w).1 = Raise rejection <->
     (ct ∉ declared_types) /\ (ext ∉ accepted_extensions)) /\
  (forall e, (parse_document file env w).1 = Raise e -> e = rejection) /\
  (~ ((ct ∉ declared_types) /\ (ext ∉ accepted_extensions)) ->
     exists r, (parse_document file env w).1 = Return r).
Proof.
  intros ct ext rejection. split; [|split].
  - apply parse_document_rejects_iff.
  - intros e. apply parse_document_raises_rejection.
  - apply parse_document_accepts.
Qed.

Lemma validation_rejection_witness :
  (("text/plain" ∉ declared_types) /\ (".txt" ∉ accepted_extensions)) /\
  (parse_document text_upload env_ok (fresh_world ∅)).1 =
    Raise (HTTPException 400 "Unsupported file type: text/plain. Supported: PDF, JPG, PNG").
Proof.
  assert (H : ("text/plain" ∉ declared_types) /\ (".txt" ∉ accepted_extensions)).
  { split; apply (bool_decide_unpack _); vm_compute; exact I. }
  split; [exact H|].
  apply (validation_rejection env_ok (fresh_world ∅) text_upload). exact H.
Defined.

(** C9. In both handlers, when conversion and Markdown export succeed but
    the removal of the temporary file in the finally block raises, the
    success response is discarded: the handler returns success=false with
    the error "Failed to parse document: " followed by the message of the
    removal's exception. *)
Theorem cleanup_failure_discards_result (env : Env) (f : gmap string (list Z))
    (p m : string) :
  (forall file,
     In (EvConvert p, None) (calls (parse_document file env (fresh_world f)).2) ->
     In (EvExport, None) (calls (parse_document file env (fresh_world f)).2) ->
     In (EvUnlink p, Some m) (calls (parse_document file env (fresh_world f)).2) ->
     (parse_document file env (fresh_world f)).1 = Return (failure m)) /\
  (forall data,
     In (EvConvert p, None) (calls (parse_document_base64 data env (fresh_world f)).2) ->
     In (EvExport, None) (calls (parse_document_base64 data env (fresh_world f)).2) ->
     In (EvUnlink p, Some m) (calls (parse_document_base64 data env (fresh_world f)).2) ->
     (parse_document_base64 data env (fresh_world f)).1 = Return (failure m)).
Proof.
  split.
  - intros file. run_cases; intros Hc He Hu; in_log.
    all: injection Hu as _ <-; reflexivity.
  - intros data. run_cases; intros Hc He Hu; in_log.
    all: injection Hu as _ <-; reflexivity.
Qed.

Lemma cleanup_failure_discards_result_witness :
  In (EvExport, None) (calls (parse_document pdf_upload env_unlink_fails (fresh_world ∅)).2) /\
  (parse_document pdf_upload env_unlink_fails (fresh_world ∅)).1 =
    Return (failure "[Errno 13] Permission denied").
Proof.
  split; [log_mem|].
  apply (cleanup_failure_discards_result env_unlink_fails ∅ "/tmp/tmpk3f9a2.pdf"); log_mem.
Defined.

(** ** The blanket failure policy *)

Lemma parse_document_reports env f file ev m :
  (forall p, ev <> EvUnlink p) ->
  In (ev, Some m) (calls (parse_document file env (fresh_world f)).2) ->
  reported m (parse_document file env (fresh_world f)).
Proof.
  intros Hev. unfold reported, unlink_clean.
  run_cases; intros Hin; in_log.
  all: try (exfalso; injection Hin as Hin _; eapply Hev; symmetry; exact Hin).
  all: injection Hin as _ <-.
  all: repeat split; eauto.
  all: try (intros p m' Hu; in_log; injection Hu as _ <-; reflexivity).
  all: try (intros Hclean; exfalso; eapply Hclean; cbn; eauto 10).
Qed.

Lemma parse_document_base64_reports env f data ev m :
  (forall p, ev <> EvUnlink p) ->
  In (ev, Some m) (calls (parse_document_base64 data env (fresh_world f)).2) ->
  reported m (parse_document_base64 data env (fresh_world f)).
Proof.
  intros Hev. unfold reported, unlink_clean.
  run_cases; intros Hin; in_log.
  all: try (exfalso; injection Hin as Hin _; eapply Hev; symmetry; exact Hin).
  all: injection Hin as _ <-.
  all: repeat split; eauto.
  all: try (intros p m' Hu; in_log; injection Hu as _ <-; reflexivity).
  all: try (intros Hclean; exfalso; eapply Hclean; cbn; eauto 10).
Qed.

(** C2 (as amended). For both endpoints, every exception raised during
    base64 decoding, file writing, conversion or Markdown export is caught
    and turned into an in-band response with success=false; its error string
    is "Failed to parse document: " followed by that exception's message,
    except that when the removal of the temporary file in the finally block
    raises afterwards the message reported is the removal's.  No such
    exception propagates to the transport layer. *)
Theorem failure_policy (env : Env) (f : gmap string (list Z)) (ev : event) (m : string) :
  policy_stage ev = true ->
  (forall file,
     In (ev, Some m) (calls (parse_document file env (fresh_world f)).2) ->
     reported m (parse_document file env (fresh_world f)) /\
     http_status (parse_document file env (fresh_world f)).1 = 200) /\
  (forall data,
     In (ev, Some m) (calls (parse_document_base64 data env (fresh_world f)).2) ->
     reported m (parse_document_base64 data env (fresh_world f)) /\
     http_status (parse_document_base64 data env (fresh_world f)).1 = 200).
Proof.
  intros Hstage.
  assert (Hev : forall p, ev <> EvUnlink p).
  { intros p ->. discriminate Hstage. }
  split.
  - intros file Hin.
    pose proof (parse_document_reports env f file ev m Hev Hin) as Hrep.
    split; [exact Hrep|]. destruct Hrep as [[r ->] _]. reflexivity.
  - intros data Hin.
    pose proof (parse_document_base64_reports env f data ev m Hev Hin) as Hrep.
    split; [exact Hrep|]. destruct Hrep as [[r ->] _]. reflexivity.
Qed.

Lemma failure_policy_witness :
  In (EvConvert "/tmp/tmpk3f9a2.pdf", Some "File format not allowed")
     (calls (parse_document pdf_upload env_convert_fails (fresh_world ∅)).2) /\
  (parse_document pdf_upload env_convert_fails (fresh_world ∅)).1 =
    Return (failure "File format not allowed").
Proof.
  assert (Hin : In (EvConvert "/tmp/tmpk3f9a2.pdf", Some "File format not allowed")
                   (calls (parse_document pdf_upload env_convert_fails (fresh_world ∅)).2)).
  { log_mem. }
  split; [exact Hin|].
  destruct (failure_policy env_convert_fails ∅ (EvConvert "/tmp/tmpk3f9a2.pdf")
              "File format not allowed" eq_refl) as [Hparse _].
  destruct (Hparse pdf_upload Hin) as [(_ & Hclean & _) _].
  apply Hclean. intros p m' Hu. vm_compute in Hu.
  repeat (destruct Hu as [Hu|Hu]; [discriminate Hu|]). exact Hu.
Defined.

(** The claim without the exception for a failing removal is false: the
    converter's exception is raised during conversion, and the response
    carries the message of the removal's exception instead. *)
Lemma conversion_error_masked_by_cleanup :
  policy_stage (EvConvert "/tmp/tmpk3f9a2.pdf") = true /\
  In (EvConvert "/tmp/tmpk3f9a2.pdf", Some "File format not allowed")
     (calls (parse_document pdf_upload env_convert_and_unlink_fail (fresh_world ∅)).2) /\
  (parse_document pdf_upload env_convert_and_unlink_fail (fresh_world ∅)).1 =
    Return (failure "[Errno 13] Permission denied") /\
  (parse_document pdf_upload env_convert_and_unlink_fail (fresh_world ∅)).1 <>
    Return (failure "File format not allowed").
Proof.
  split; [reflexivity|]. split; [log_mem|]. split; [vm_compute; reflexivity|].
  vm_compute. discriminate.
Qed.

(** ** The transient file *)

Lemma parse_document_cleanup env f p file :
  In (EvCreate p, None) (calls (parse_document file env (fresh_world f)).2) ->
  write_clean p (calls (parse_document file env (fresh_world f)).2) ->
  (exists o, In (EvUnlink p, o) (calls (parse_document file env (fresh_world f)).2)) /\
  (unlink_clean (calls (parse_document file env (fresh_world f)).2) ->
   fs (parse_document file env (fresh_world f)).2 !! p = None).
Proof.
  unfold unlink_clean, write_clean.
  run_cases; intros Hc Hw; in_log.
  all: injection Hc as <-.
  all: try (exfalso; eapply Hw; cbn; eauto 10; fail).
  all: split; [eexists; cbn; eauto 10|].
  all: try (intros _; apply lookup_delete_eq).
  all: intros Hclean; exfalso; eapply Hclean; cbn; eauto 10.
Qed.

Lemma parse_document_base64_cleanup env f p data :
  In (EvCreate p, None) (calls (parse_document_base64 data env (fresh_world f)).2) ->
  write_clean p (calls (parse_document_base64 data env (fresh_world f)).2) ->
  (exists o, In (EvUnlink p, o) (calls (parse_document_base64 data env (fresh_world f)).2)) /\
  (unlink_clean (calls (parse_document_base64 data env (fresh_world f)).2) ->
   fs (parse_document_base64 data env (fresh_world f)).2 !! p = None).
Proof.
  unfold unlink_clean, write_clean.
  run_cases; intros Hc Hw; in_log.
  all: injection Hc as <-.
  all: try (exfalso; eapply Hw; cbn; eauto 10; fail).
  all: split; [eexists; cbn; eauto 10|].
  all: try (intros _; apply lookup_delete_eq).
  all: intros Hclean; exfalso; eapply Hclean; cbn; eauto 10.
Qed.

(** C4 (as amended). For every request to /parse or /parse-base64 in which
    the transient temporary file is created and its payload written without
    an exception, os.unlink is called on that file before the handler
    finishes, on every exit path of the conversion (successful export, an
    exception of the converter, an exception of export_to_markdown); when
    that call does not raise, no transient file of the request remains. *)
Theorem transient_file_removed (env : Env) (f : gmap string (list Z)) (p : string) :
  (forall file,
     In (EvCreate p, None) (calls (parse_document file env (fresh_world f)).2) ->
     write_clean p (calls (parse_document file env (fresh_world f)).2) ->
     (exists o, In (EvUnlink p, o) (calls (parse_document file env (fresh_world f)).2)) /\
     (unlink_clean (calls (parse_document file env (fresh_world f)).2) ->
      fs (parse_document file env (fresh_world f)).2 !! p = None)) /\
  (forall data,
     In (EvCreate p, None) (calls (parse_document_base64 data env (fresh_world f)).2) ->
     write_clean p (calls (parse_document_base64 data env (fresh_world f)).2) ->
     (exists o, In (EvUnlink p, o) (calls (parse_document_base64 data env (fresh_world f)).2)) /\
     (unlink_clean (calls (parse_document_base64 data env (fresh_world f)).2) ->
      fs (parse_document_base64 data env (fresh_world f)).2 !! p = None)).
Proof.
  split.
  - intros file. apply parse_document_cleanup.
  - intros data. apply parse_document_base64_cleanup.
Qed.

Lemma transient_file_removed_witness :
  In (EvCreate "/tmp/tmpk3f9a2.pdf", None)
     (calls (parse_document pdf_upload env_convert_fails (fresh_world ∅)).2) /\
  fs (parse_document pdf_upload env_convert_fails (fresh_world ∅)).2
    !! "/tmp/tmpk3f9a2.pdf" = None.
Proof.
  assert (Hin : In (EvCreate "/tmp/tmpk3f9a2.pdf", None)
                   (calls (parse_document pdf_upload env_convert_fails (fresh_world ∅)).2)).
  { log_mem. }
  split; [exact Hin|].
  destruct (transient_file_removed env_convert_fails ∅ "/tmp/tmpk3f9a2.pdf") as [Hparse _].
  destruct (Hparse pdf_upload Hin) as [_ Hgone].
  - intros c m H. log_absent H.
  - apply Hgone. intros q m H. log_absent H.
Defined.

(** The claim without the two conditions is false.  When the write raises
    the handler never reaches the finally block, and when os.unlink raises
    the file is not removed: in both runs the file was created and is still
    there when the handler has returned. *)
Lemma transient_file_left_behind :
  (In (EvCreate "/tmp/tmpk3f9a2.pdf", None)
      (calls (parse_document pdf_upload env_unlink_fails (fresh_world ∅)).2) /\
   fs (parse_document pdf_upload env_unlink_fails (fresh_world ∅)).2
     !! "/tmp/tmpk3f9a2.pdf" = Some [37; 80; 68; 70]) /\
  (In (EvCreate "/tmp/tmpk3f9a2.pdf", None)
      (calls (parse_document pdf_upload env_write_fails (fresh_world ∅)).2) /\
   fs (parse_document pdf_upload env_write_fails (fresh_world ∅)).2
     !! "/tmp/tmpk3f9a2.pdf" = Some []).
Proof.
  split; (split; [log_mem | vm_compute; reflexivity]).
Qed.

Lemma upload_extension_spec ct fn :
  default (Py.or_str (Py.suffix fn) ".pdf") (allowed_types !! ct) = upload_extension ct fn.
Proof.
  unfold upload_extension, allowed_types, Py.or_str.
  repeat match goal with
  | |- context [String.eqb ct ?k] =>
      destruct (String.eqb_spec ct k) as [->|?];
      [rewrite ?lookup_insert_eq; reflexivity | rewrite lookup_insert_ne by congruence]
  end.
  rewrite lookup_empty. reflexivity.
Qed.

Lemma base64_extension_spec fn :
  Py.or_str (Py.lower (Py.suffix fn)) ".pdf" = base64_extension fn.
Proof. unfold base64_extension, Py.or_str. destruct (Py.suffix fn); reflexivity. Qed.

Lemma Path_Val v s : Path v = Val s -> v = PStr s.
Proof. destruct v; cbn; congruence. Qed.

(** C7 (as amended). The transient file's extension matches the resolved
    input type: in /parse it is the allow-list mapping of a recognised
    content type, otherwise the filename's extension, defaulting to .pdf
    when neither determines it; in /parse-base64 it is the filename's
    extension converted to lower case, defaulting to .pdf when the filename
    has no extension. *)
Theorem transient_file_extension (env : Env) (f : gmap string (list Z)) (p : string) :
  (forall file,
     In (EvCreate p, None) (calls (parse_document file env (fresh_world f)).2) ->
     p = tmp_stem env +:+
         upload_extension (Py.or_empty (content_type file)) (Py.or_empty (filename file))) /\
  (forall data,
     In (EvCreate p, None) (calls (parse_document_base64 data env (fresh_world f)).2) ->
     exists fn, default (PStr "document.pdf") (data !! "filename") = PStr fn /\
                p = tmp_stem env +:+ base64_extension fn).
Proof.
  split.
  - intros file. rewrite <- upload_extension_spec.
    run_cases; intros Hc; in_log; injection Hc as <-; reflexivity.
  - intros data.
    run_cases; intros Hc; in_log; injection Hc as <-.
    all: match goal with H : Path _ = Val ?s |- _ =>
           exists s; split; [exact (Path_Val _ _ H) | rewrite <- base64_extension_spec; reflexivity]
         end.
Qed.

Lemma transient_file_extension_witness :
  In (EvCreate "/tmp/tmpk3f9a2.pdf", None)
     (calls (parse_document_base64 (b64_request "aGk=" "SCAN.PDF") env_ok (fresh_world ∅)).2) /\
  exists fn, default (PStr "document.pdf") (b64_request "aGk=" "SCAN.PDF" !! "filename") = PStr fn /\
             "/tmp/tmpk3f9a2.pdf" = tmp_stem env_ok +:+ base64_extension fn.
Proof.
  assert (Hin : In (EvCreate "/tmp/tmpk3f9a2.pdf", None)
    (calls (parse_document_base64 (b64_request "aGk=" "SCAN.PDF") env_ok (fresh_world ∅)).2)).
  { log_mem. }
  split; [exact Hin|].
  exact (proj2 (transient_file_extension env_ok ∅ "/tmp/tmpk3f9a2.pdf") _ Hin).
Defined.

(** With the extension taken as it stands in the filename the claim is
    false: SCAN.PDF has the extension .PDF, the file is created as .pdf. *)
Lemma base64_extension_is_lowercased :
  default (PStr "document.pdf") (b64_request "aGk=" "SCAN.PDF" !! "filename") = PStr "SCAN.PDF" /\
  Py.suffix "SCAN.PDF" = ".PDF" /\
  In (EvCreate "/tmp/tmpk3f9a2.pdf", None)
     (calls (parse_document_base64 (b64_request "aGk=" "SCAN.PDF") env_ok (fresh_world ∅)).2) /\
  "/tmp/tmpk3f9a2.pdf" <> tmp_stem env_ok +:+ base64_extension_as_claimed "SCAN.PDF".
Proof.
  split; [vm_compute; reflexivity|]. split; [vm_compute; reflexivity|].
  split; [log_mem|]. vm_compute. discriminate.
Qed.

(** ** Extension fallback *)

Lemma accepted_extension_nonempty s :
  Py.lower s ∈ accepted_extensions -> Py.or_str s ".pdf" = s.
Proof.
  destruct s as [|c s]; [|reflexivity].
  unfold accepted_extensions. cbn. rewrite !elem_of_cons, elem_of_nil.
  intros H. decompose [or] H; discriminate || contradiction.
Qed.

(** C5. An upload whose declared content type is missing, empty or not in
    the allow-list but whose filename has one of the extensions .pdf, .jpg,
    .jpeg, .png (compared in lower case) passes validation: the handler
    returns an envelope instead of raising the 400, and with a cooperating
    environment it goes through read, write, convert, export and removal
    and returns the Markdown. *)
Theorem extension_fallback (env : Env) (f : gmap string (list Z)) (file : UploadFile) :
  let ct := Py.or_empty (content_type file) in
  let fn := Py.or_empty (filename file) in
  let p := tmp_stem env +:+ Py.suffix fn in
  ct ∉ declared_types ->
  Py.lower (Py.suffix fn) ∈ accepted_extensions ->
  (exists r, (parse_document file env (fresh_world f)).1 = Return r) /\
  (forall d md,
     read_error env = None -> create_error env (Py.suffix fn) = None ->
     write_error env = None -> converter_error env = None ->
     convert env configured_converter p (Some (body file)) = Val d -> export_to_markdown d = Val md ->
     unlink_error env = None ->
     (parse_document file env (fresh_world f)).1 = Return (succeeded md) /\
     calls (parse_document file env (fresh_world f)).2 =
       [(EvRead, None); (EvCreate p, None); (EvWrite p (body file), None);
        (EvGetConverter, None); (EvConvert p, None); (EvExport, None);
        (EvUnlink p, None)]).
Proof.
  intros ct fn p Hct Hext. split.
  - apply parse_document_accepts. intros [_ Hn]. apply Hn, Hext.
  - intros d md Hr Hc Hw Hg Hconv Hexp Hu. unfold configured_converter in Hconv.
    apply allowed_types_None in Hct.
    pose proof (accepted_extension_nonempty _ Hext) as Hsfx.
    unfold_run. fold ct. fold fn. rewrite Hct.
    rewrite (bool_decide_eq_true_2 _ Hext). unfold_run.
    rewrite Hr. unfold_run. cbn [default]. rewrite Hsfx, Hc. unfold_run.
    rewrite Hw. unfold_run. rewrite Hg. unfold_run. fold p.
    rewrite Hconv. unfold_run. rewrite Hexp. unfold_run. rewrite Hu. unfold_run.
    split; reflexivity.
Qed.

Lemma extension_fallback_witness :
  (Py.or_empty (content_type untyped_upload) ∉ declared_types) /\
  (Py.lower (Py.suffix (Py.or_empty (filename untyped_upload))) ∈ accepted_extensions) /\
  (parse_document untyped_upload env_ok (fresh_world ∅)).1 = Return (succeeded "# Invoice").
Proof.
  assert (H1 : Py.or_empty (content_type untyped_upload) ∉ declared_types).
  { apply (bool_decide_unpack _). vm_compute. exact I. }
  assert (H2 : Py.lower (Py.suffix (Py.or_empty (filename untyped_upload)))
                 ∈ accepted_extensions).
  { apply (bool_decide_unpack _). vm_compute. exact I. }
  split; [exact H1|]. split; [exact H2|].
  destruct (extension_fallback env_ok ∅ untyped_upload H1 H2) as [_ Hrun].
  apply (Hrun sample_document "# Invoice"); reflexivity.
Defined.

(** ** The base64 endpoint *)

(** C6. When the base64 decode of the content field raises, the
    /parse-base64 handler returns a normal response with success=false and
    an error string starting with "Failed to parse document:"; nothing
    reaches the transport layer, and nothing else is attempted. *)
Theorem decode_failure_in_band (env : Env) (w : World) (data : gmap string pyval)
    (m : string) :
  Base64.b64decode (default (PStr "") (data !! "content")) = Err m ->
  (exists msg,
     (parse_document_base64 data env w).1 =
       Return {| success := false; markdown := None; error := Some msg |} /\
     Py.startswith "Failed to parse document:" msg = true /\
     msg = error_prefix +:+ m) /\
  http_status (parse_document_base64 data env w).1 = 200 /\
  calls (parse_document_base64 data env w).2 = (calls w ++ [(EvDecode, Some m)])%list.
Proof.
  intros Hdec. unfold_run. rewrite Hdec. unfold_run.
  split; [|split; reflexivity].
  eexists. split; [reflexivity|]. split; reflexivity.
Qed.

Lemma decode_failure_in_band_witness :
  Base64.b64decode (default (PStr "") (b64_request "aGk" "invoice.pdf" !! "content")) =
    Err "Incorrect padding" /\
  (parse_document_base64 (b64_request "aGk" "invoice.pdf") env_ok (fresh_world ∅)).1 =
    Return (failure "Incorrect padding").
Proof.
  assert (H : Base64.b64decode
                (default (PStr "") (b64_request "aGk" "invoice.pdf" !! "content")) =
              Err "Incorrect padding").
  { vm_compute. reflexivity. }
  split; [exact H|].
  destruct (decode_failure_in_band env_ok (fresh_world ∅) _ _ H) as [(msg & Hrun & _ & ->) _].
  exact Hrun.
Defined.

(** ** Health endpoints *)

(** C8. The two health operations are constant and free of effects: for
    every environment and every world GET /health returns {status: "ok"} and
    GET / returns the fixed {status, service} object, and both leave the
    file system and the call log as they found them, so neither calls the
    converter. *)
Theorem health_constant (env : Env) (w : World) :
  health_check env w = (Return [("status", "ok")], w) /\
  root env w =
    (Return [("status", "healthy"); ("service", "FairShare Document Parser")], w) /\
  calls (health_check env w).2 = calls w /\ fs (health_check env w).2 = fs w /\
  calls (root env w).2 = calls w /\ fs (root env w).2 = fs w.
Proof. repeat split. Qed.

Lemma base64_default_content data env w :
  data !! "content" = None ->
  parse_document_base64 data env w =
  parse_document_base64 (<["content" := PStr ""]> data) env w.
Proof.
  intros H. unfold parse_document_base64.
  rewrite lookup_insert_eq, lookup_insert_ne by discriminate. rewrite H. reflexivity.
Qed.

Lemma base64_default_filename data env w :
  data !! "filename" = None ->
  parse_document_base64 data env w =
  parse_document_base64 (<["filename" := PStr "document.pdf"]> data) env w.
Proof.
  intros H. unfold parse_document_base64.
  rewrite lookup_insert_eq, lookup_insert_ne by discriminate. rewrite H. reflexivity.
Qed.

(** Whatever the extension, a decodable request with a string filename
    reaches the converter when the file can be created and written. *)
Lemma base64_reaches_converter env f data content fn :
  Base64.b64decode (default (PStr "") (data !! "content")) = Val content ->
  default (PStr "document.pdf") (data !! "filename") = PStr fn ->
  create_error env (base64_extension fn) = None ->
  write_error env = None -> converter_error env = None ->
  let p := tmp_stem env +:+ base64_extension fn in
  let result := convert env configured_converter p (Some content) in
  In (EvWrite p content, None) (calls (parse_document_base64 data env (fresh_world f)).2) /\
  In (EvConvert p, match result with Val _ => None | Err m => Some m end)
     (calls (parse_document_base64 data env (fresh_world f)).2) /\
  (forall m, result = Err m -> unlink_error env = None ->
     (parse_document_base64 data env (fresh_world f)).1 = Return (failure m)).
Proof.
  intros Hdec Hfn Hc Hw Hg p result. subst result. unfold configured_converter.
  unfold_run. rewrite Hdec, Hfn. unfold_run. cbn [Path]. unfold_run.
  rewrite base64_extension_spec, Hc. unfold_run. rewrite Hw. unfold_run.
  rewrite Hg. unfold_run. fold p.
  destruct (convert env _ p (Some content)) as [d|m0] eqn:Hconv; unfold_run.
  - destruct (export_to_markdown d); unfold_run;
      destruct (unlink_error env); unfold_run;
      (split; [cbn; auto 10 | split; [cbn; auto 10 | discriminate]]).
  - destruct (unlink_error env) eqn:Hu; unfold_run;
      (split; [cbn; auto 10 | split; [cbn; auto 10 |]]).
    + intros m _ Hn. discriminate Hn.
    + intros m [= <-] _. reflexivity.
Qed.

(** C10. The /parse-base64 handler does no content-type or extension
    validation and never raises: for every dict it returns an envelope with
    status 200.  A missing content field stands for the empty string, which
    decodes to zero bytes; a missing filename stands for "document.pdf"; a
    filename with an extension outside the upload allow-list, such as .txt,
    is written out under that extension and handed to the converter, whose
    failure comes back in-band as success=false. *)
Theorem base64_no_validation (env : Env) (f : gmap string (list Z))
    (data : gmap string pyval) :
  ((exists r, (parse_document_base64 data env (fresh_world f)).1 = Return r) /\
   http_status (parse_document_base64 data env (fresh_world f)).1 = 200) /\
  (data !! "content" = None ->
     parse_document_base64 data env (fresh_world f) =
       parse_document_base64 (<["content" := PStr ""]> data) env (fresh_world f) /\
     Base64.b64decode (PStr "") = Val []) /\
  (data !! "filename" = None ->
     parse_document_base64 data env (fresh_world f) =
       parse_document_base64 (<["filename" := PStr "document.pdf"]> data) env (fresh_world f)) /\
  (forall content fn,
     Base64.b64decode (default (PStr "") (data !! "content")) = Val content ->
     default (PStr "document.pdf") (data !! "filename") = PStr fn ->
     create_error env (base64_extension fn) = None ->
     write_error env = None -> converter_error env = None ->
     let p := tmp_stem env +:+ base64_extension fn in
     let result := convert env configured_converter p (Some content) in
     In (EvWrite p content, None) (calls (parse_document_base64 data env (fresh_world f)).2) /\
     In (EvConvert p, match result with Val _ => None | Err m => Some m end)
        (calls (parse_document_base64 data env (fresh_world f)).2) /\
     (forall m, result = Err m -> unlink_error env = None ->
        (parse_document_base64 data env (fresh_world f)).1 = Return (failure m))).
Proof.
  split; [|split; [|split]].
  - destruct (parse_document_base64_total data env (fresh_world f)) as (r & w' & Hr).
    rewrite Hr. split; [eexists|]; reflexivity.
  - intros H. split; [apply base64_default_content, H | reflexivity].
  - apply base64_default_filename.
  - apply base64_reaches_converter.
Qed.

Lemma base64_no_validation_witness :
  (".txt" ∉ accepted_extensions) /\
  In (EvConvert "/tmp/tmpk3f9a2.txt", Some "File format not allowed")
     (calls (parse_document_base64 (b64_request "aGk=" "notes.txt") env_convert_fails
               (fresh_world ∅)).2) /\
  (parse_document_base64 (b64_request "aGk=" "notes.txt") env_convert_fails (fresh_world ∅)).1 =
    Return (failure "File format not allowed").
Proof.
  split. { apply (bool_decide_unpack _). vm_compute. exact I. }
  destruct (base64_no_validation env_convert_fails ∅ (b64_request "aGk=" "notes.txt"))
    as (_ & _ & _ & Hconv).
  destruct (Hconv [104; 105] "notes.txt") as (_ & Hcall & Hfail);
    try (vm_compute; reflexivity).
  split; [exact Hcall|]. apply Hfail; reflexivity.
Defined.

(** * Further properties of the handlers *)

(** ** Precedence of the declared type *)

Lemma declared_type_allowed ct : ct ∈ declared_types -> is_Some (allowed_types !! ct).
Proof.
  intros H. destruct (allowed_types !! ct) eqn:Hl; [eauto|].
  apply allowed_types_None in Hl. contradiction.
Qed.

(** X1. A declared content type of the allow-list decides alone: the
    filename plays no part, neither in validation nor in the name of the
    transient file, so two uploads that differ only in their filename are
    handled identically. *)
Theorem declared_type_overrides_filename (env : Env) (w : World) (ct : string)
    (fn1 fn2 : option string) (payload : list Z) :
  ct ∈ declared_types ->
  parse_document {| content_type := Some ct; filename := fn1; body := payload |} env w =
  parse_document {| content_type := Some ct; filename := fn2; body := payload |} env w.
Proof.
  intros Hct. destruct (declared_type_allowed ct Hct) as [e He].
  unfold parse_document. cbn [content_type filename body Py.or_empty].
  rewrite He. reflexivity.
Qed.

Lemma declared_type_overrides_filename_witness :
  ("image/png" ∈ declared_types) /\
  parse_document mislabelled_upload env_ok (fresh_world ∅) =
  parse_document {| content_type := Some "image/png"; filename := None; body := [137; 80] |}
    env_ok (fresh_world ∅).
Proof.
  assert (H : "image/png" ∈ declared_types).
  { apply (bool_decide_unpack _). vm_compute. exact I. }
  split; [exact H|].
  apply (declared_type_overrides_filename env_ok (fresh_world ∅) "image/png" _ _ _ H).
Defined.

(** ** The name of an upload's transient file *)



(** ** Effects on the file system *)

(** X3. A rejected upload has no effect at all: when /parse raises, the
    payload has not been read, no file has been created and the converter
    has not been built; the world is the one the request started in. *)
Theorem rejection_has_no_effect (env : Env) (w : World) (file : UploadFile) (e : exc) :
  (parse_document file env w).1 = Raise e ->
  (parse_document file env w).2 = w.
Proof.
  unfold parse_document, bind.
  destruct (allowed_types !! _).
  - cbn. match goal with |- context [try_except ?b ?h env w] =>
      destruct (try_except_total b
        (fun e => {| success := false; markdown := None;
                     error := Some ("Failed to parse document: " +:+ exc_str e) |}) env w)
        as (r & w' & Hr) end.
    rewrite Hr. discriminate.
  - destruct (bool_decide _); cbn; [|reflexivity].
    match goal with |- context [try_except ?b ?h env w] =>
      destruct (try_except_total b
        (fun e => {| success := false; markdown := None;
                     error := Some ("Failed to parse document: " +:+ exc_str e) |}) env w)
        as (r & w' & Hr) end.
    rewrite Hr. discriminate.
Qed.

Lemma rejection_has_no_effect_witness :
  (exists e, (parse_document text_upload env_ok (fresh_world ∅)).1 = Raise e) /\
  (parse_document text_upload env_ok (fresh_world ∅)).2 = fresh_world ∅.
Proof.
  assert (H : (parse_document text_upload env_ok (fresh_world ∅)).1 =
              Raise (HTTPException 400
                       "Unsupported file type: text/plain. Supported: PDF, JPG, PNG")).
  { vm_compute. reflexivity. }
  split; [eexists; exact H|].
  exact (rejection_has_no_effect env_ok (fresh_world ∅) text_upload _ H).
Defined.

Lemma parse_document_frame env f file q :
  (forall o, ~ In (EvCreate q, o) (calls (parse_document file env (fresh_world f)).2)) ->
  fs (parse_document file env (fresh_world f)).2 !! q = f !! q.
Proof.
  run_cases; intros Hq; try reflexivity.
  all: match type of Hq with
       | context [EvCreate ?p] =>
           assert (Hne : p <> q) by (intros Heq; subst q; eapply Hq; cbn; eauto 10)
       end.
  all: rewrite ?lookup_delete_ne, ?lookup_insert_ne by exact Hne; reflexivity.
Qed.

Lemma parse_document_base64_frame env f data q :
  (forall o, ~ In (EvCreate q, o) (calls (parse_document_base64 data env (fresh_world f)).2)) ->
  fs (parse_document_base64 data env (fresh_world f)).2 !! q = f !! q.
Proof.
  run_cases; intros Hq; try reflexivity.
  all: match type of Hq with
       | context [EvCreate ?p] =>
           assert (Hne : p <> q) by (intros Heq; subst q; eapply Hq; cbn; eauto 10)
       end.
  all: rewrite ?lookup_delete_ne, ?lookup_insert_ne by exact Hne; reflexivity.
Qed.

(** X4. A request changes no file but its own transient one: every path
    the request did not pass to NamedTemporaryFile holds after the request
    what it held before, on every exit path of both handlers. *)
Theorem other_files_untouched (env : Env) (f : gmap string (list Z)) (q : string) :
  (forall file,
     (forall o, ~ In (EvCreate q, o) (calls (parse_document file env (fresh_world f)).2)) ->
     fs (parse_document file env (fresh_world f)).2 !! q = f !! q) /\
  (forall data,
     (forall o, ~ In (EvCreate q, o)
                   (calls (parse_document_base64 data env (fresh_world f)).2)) ->
     fs (parse_document_base64 data env (fresh_world f)).2 !! q = f !! q).
Proof.
  split; [intros file; apply parse_document_frame
         | intros data; apply parse_document_base64_frame].
Qed.

Lemma other_files_untouched_witness :
  fs (parse_document pdf_upload env_unlink_fails (fresh_world {["/etc/passwd" := [114]]})).2
    !! "/etc/passwd" = Some [114].
Proof.
  destruct (other_files_untouched env_unlink_fails {["/etc/passwd" := [114]]} "/etc/passwd")
    as [Hparse _].
  rewrite (Hparse pdf_upload); [vm_compute; reflexivity|].
  intros o H. log_absent H.
Defined.

Lemma parse_document_restores env f file :
  (forall p, In (EvCreate p, None) (calls (parse_document file env (fresh_world f)).2) ->
             f !! p = None) ->
  all_calls_clean (calls (parse_document file env (fresh_world f)).2) ->
  fs (parse_document file env (fresh_world f)).2 = f.
Proof.
  unfold all_calls_clean.
  run_cases; intros Hfresh Hclean; try reflexivity.
  all: try (exfalso; repeat (apply Forall_cons in Hclean as [? Hclean]); discriminate).
  all: rewrite delete_insert_eq; apply delete_insert_id, Hfresh; cbn; auto 10.
Qed.

Lemma parse_document_base64_restores env f data :
  (forall p, In (EvCreate p, None) (calls (parse_document_base64 data env (fresh_world f)).2) ->
             f !! p = None) ->
  all_calls_clean (calls (parse_document_base64 data env (fresh_world f)).2) ->
  fs (parse_document_base64 data env (fresh_world f)).2 = f.
Proof.
  unfold all_calls_clean.
  run_cases; intros Hfresh Hclean; try reflexivity.
  all: try (exfalso; repeat (apply Forall_cons in Hclean as [? Hclean]); discriminate).
  all: rewrite delete_insert_eq; apply delete_insert_id, Hfresh; cbn; auto 10.
Qed.

(** X5. A request none of whose calls raises leaves the file system exactly
    as it found it, provided the name NamedTemporaryFile picked was free:
    the transient file is the only trace, and it is gone. *)
Theorem clean_request_restores_files (env : Env) (f : gmap string (list Z)) :
  (forall file,
     (forall p, In (EvCreate p, None) (calls (parse_document file env (fresh_world f)).2) ->
                f !! p = None) ->
     all_calls_clean (calls (parse_document file env (fresh_world f)).2) ->
     fs (parse_document file env (fresh_world f)).2 = f) /\
  (forall data,
     (forall p, In (EvCreate p, None)
                   (calls (parse_document_base64 data env (fresh_world f)).2) ->
                f !! p = None) ->
     all_calls_clean (calls (parse_document_base64 data env (fresh_world f)).2) ->
     fs (parse_document_base64 data env (fresh_world f)).2 = f).
Proof.
  split; [intros file; apply parse_document_restores
         | intros data; apply parse_document_base64_restores].
Qed.

Lemma clean_request_restores_files_witness :
  fs (parse_document pdf_upload env_ok (fresh_world {["/srv/keep" := [1; 2]]})).2 =
    {["/srv/keep" := [1; 2]]}.
Proof.
  destruct (clean_request_restores_files env_ok {["/srv/keep" := [1; 2]]}) as [Hparse _].
  apply (Hparse pdf_upload).
  - intros p H. vm_compute in H.
    repeat (destruct H as [H|H]; [try discriminate H|]); [|destruct H].
    injection H as <-. vm_compute. reflexivity.
  - unfold all_calls_clean. vm_compute. repeat constructor.
Defined.


(** ** What a response tells about the run *)

Lemma parse_document_success env f file r :
  (parse_document file env (fresh_world f)).1 = Return r -> success r = true ->
  all_calls_clean (calls (parse_document file env (fresh_world f)).2) /\
  exists p d md,
    r = succeeded md /\ export_to_markdown d = Val md /\
    convert env configured_converter p (Some (body file)) = Val d /\
    In (EvUnlink p, None) (calls (parse_document file env (fresh_world f)).2) /\
    fs (parse_document file env (fresh_world f)).2 !! p = None.
Proof.
  unfold all_calls_clean, configured_converter.
  run_cases; intros [= <-]; try discriminate; intros _.
  all: split; [repeat constructor|].
  all: do 3 eexists; split; [reflexivity|]; split; [eassumption|]; split; [eassumption|].
  all: split; [cbn; auto 10 | apply lookup_delete_eq].
Qed.

Lemma parse_document_base64_success env f data r :
  (parse_document_base64 data env (fresh_world f)).1 = Return r -> success r = true ->
  all_calls_clean (calls (parse_document_base64 data env (fresh_world f)).2) /\
  exists p content d md,
    r = succeeded md /\ export_to_markdown d = Val md /\
    Base64.b64decode (default (PStr "") (data !! "content")) = Val content /\
    convert env configured_converter p (Some content) = Val d /\
    In (EvUnlink p, None) (calls (parse_document_base64 data env (fresh_world f)).2) /\
    fs (parse_document_base64 data env (fresh_world f)).2 !! p = None.
Proof.
  unfold all_calls_clean, configured_converter.
  run_cases; intros [= <-]; try discriminate; intros _.
  all: split; [repeat constructor|].
  all: do 4 eexists; split; [reflexivity|]; split; [eassumption|]; split; [reflexivity|].
  all: split; [eassumption|]; split; [cbn; auto 10 | apply lookup_delete_eq].
Qed.

(** X7. A response with success=true vouches for the whole run: no call of
    the request raised, the markdown is what export_to_markdown returned for
    the document the converter made of exactly the payload (the uploaded
    bytes, or the decoded base64 text), and the transient file has been
    unlinked and is gone. *)
Theorem success_means_clean_run (env : Env) (f : gmap string (list Z)) (r : ParseResponse) :
  success r = true ->
  (forall file,
     (parse_document file env (fresh_world f)).1 = Return r ->
     all_calls_clean (calls (parse_document file env (fresh_world f)).2) /\
     exists p d md,
       r = succeeded md /\ export_to_markdown d = Val md /\
       convert env configured_converter p (Some (body file)) = Val d /\
       In (EvUnlink p, None) (calls (parse_document file env (fresh_world f)).2) /\
       fs (parse_document file env (fresh_world f)).2 !! p = None) /\
  (forall data,
     (parse_document_base64 data env (fresh_world f)).1 = Return r ->
     all_calls_clean (calls (parse_document_base64 data env (fresh_world f)).2) /\
     exists p content d md,
       r = succeeded md /\ export_to_markdown d = Val md /\
       Base64.b64decode (default (PStr "") (data !! "content")) = Val content /\
       convert env configured_converter p (Some content) = Val d /\
       In (EvUnlink p, None) (calls (parse_document_base64 data env (fresh_world f)).2) /\
       fs (parse_document_base64 data env (fresh_world f)).2 !! p = None).
Proof.
  intros Hs. split.
  - intros file Hr. exact (parse_document_success env f file r Hr Hs).
  - intros data Hr. exact (parse_document_base64_success env f data r Hr Hs).
Qed.

Lemma success_means_clean_run_witness :
  (parse_document pdf_upload env_ok (fresh_world ∅)).1 = Return (succeeded "# Invoice") /\
  all_calls_clean (calls (parse_document pdf_upload env_ok (fresh_world ∅)).2).
Proof.
  assert (H : (parse_document pdf_upload env_ok (fresh_world ∅)).1 =
              Return (succeeded "# Invoice")).
  { vm_compute. reflexivity. }
  split; [exact H|].
  destruct (success_means_clean_run env_ok ∅ (succeeded "# Invoice") eq_refl) as [Hparse _].
  exact (proj1 (Hparse pdf_upload H)).
Defined.

Lemma parse_document_failure env f file r :
  (parse_document file env (fresh_world f)).1 = Return r -> success r = false ->
  exists ev m, r = failure m /\
    last (raised_calls (calls (parse_document file env (fresh_world f)).2)) =
      Some (ev, Some m).
Proof.
  run_cases; intros [= <-]; try discriminate; intros _.
  all: do 2 eexists; split; reflexivity.
Qed.

Lemma parse_document_base64_failure env f data r :
  (parse_document_base64 data env (fresh_world f)).1 = Return r -> success r = false ->
  exists ev m, r = failure m /\
    last (raised_calls (calls (parse_document_base64 data env (fresh_world f)).2)) =
      Some (ev, Some m).
Proof.
  run_cases; intros [= <-]; try discriminate; intros _.
  all: do 2 eexists; split; reflexivity.
Qed.

(** X8. A response with success=false always stems from a call that
    raised: its error string is "Failed to parse document: " followed by the
    message of the last call of the request that raised. *)
Theorem failure_reports_last_raised_call (env : Env) (f : gmap string (list Z)) (r : ParseResponse) :
  success r = false ->
  (forall file,
     (parse_document file env (fresh_world f)).1 = Return r ->
     exists ev m, r = failure m /\
       last (raised_calls (calls (parse_document file env (fresh_world f)).2)) =
         Some (ev, Some m)) /\
  (forall data,
     (parse_document_base64 data env (fresh_world f)).1 = Return r ->
     exists ev m, r = failure m /\
       last (raised_calls (calls (parse_document_base64 data env (fresh_world f)).2)) =
         Some (ev, Some m)).
Proof.
  intros Hs. split.
  - intros file Hr. exact (parse_document_failure env f file r Hr Hs).
  - intros data Hr. exact (parse_document_base64_failure env f data r Hr Hs).
Qed.

Lemma failure_reports_last_raised_call_witness :
  (parse_document_base64 numeric_filename_request env_ok (fresh_world ∅)).1 =
    Return (failure "expected str, bytes or os.PathLike object, not int") /\
  exists ev m,
    failure "expected str, bytes or os.PathLike object, not int" = failure m /\
    last (raised_calls
            (calls (parse_document_base64 numeric_filename_request env_ok (fresh_world ∅)).2)) =
      Some (ev, Some m).
Proof.
  assert (H : (parse_document_base64 numeric_filename_request env_ok (fresh_world ∅)).1 =
              Return (failure "expected str, bytes or os.PathLike object, not int")).
  { vm_compute. reflexivity. }
  split; [exact H|].
  destruct (failure_reports_last_raised_call env_ok ∅
              (failure "expected str, bytes or os.PathLike object, not int") eq_refl)
    as [_ Hb64].
  exact (Hb64 numeric_filename_request H).
Defined.

(** ** What the converter is asked *)

Lemma parse_document_convert_point env c' w file :
  c' configured_converter
     (tmp_stem env +:+
      upload_extension (Py.or_empty (content_type file)) (Py.or_empty (filename file)))
     (Some (body file)) =
  convert env configured_converter
     (tmp_stem env +:+
      upload_extension (Py.or_empty (content_type file)) (Py.or_empty (filename file)))
     (Some (body file)) ->
  parse_document file (with_convert env c') w = parse_document file env w.
Proof.
  rewrite <- upload_extension_spec. unfold configured_converter. intros H.
  unfold_run; simpl_env.
  repeat (first [rewrite H | case_env]; simpl_env); reflexivity.
Qed.

Lemma parse_document_base64_convert_point env c' w data :
  (forall content fn,
     Base64.b64decode (default (PStr "") (data !! "content")) = Val content ->
     default (PStr "document.pdf") (data !! "filename") = PStr fn ->
     c' configured_converter (tmp_stem env +:+ base64_extension fn) (Some content) =
     convert env configured_converter (tmp_stem env +:+ base64_extension fn) (Some content)) ->
  parse_document_base64 data (with_convert env c') w = parse_document_base64 data env w.
Proof.
  unfold configured_converter. intros H.
  unfold_run; simpl_env.
  destruct (Base64.b64decode _) as [content|m] eqn:Hdec; unfold_run; simpl_env;
    [|reflexivity].
  destruct (Path _) as [fn|m] eqn:Hp; unfold_run; simpl_env; [|reflexivity].
  apply Path_Val in Hp. specialize (H content fn eq_refl Hp).
  rewrite <- base64_extension_spec in H.
  repeat (first [rewrite H | case_env]; simpl_env); reflexivity.
Qed.

(** X9. A request consults the converter at one point only: with the
    configuration get_converter builds (OCR and table structure on, images
    enabled), on the request's own transient path, holding exactly the
    payload.  Two converters that agree there give the same run, whatever
    they do with other configurations, other paths or other bytes. *)
Theorem converter_consulted_at_one_point (env : Env) (w : World)
    (c' : DocumentConverter -> string -> option (list Z) -> res Document) :
  (forall file,
     c' configured_converter
        (tmp_stem env +:+
         upload_extension (Py.or_empty (content_type file)) (Py.or_empty (filename file)))
        (Some (body file)) =
     convert env configured_converter
        (tmp_stem env +:+
         upload_extension (Py.or_empty (content_type file)) (Py.or_empty (filename file)))
        (Some (body file)) ->
     parse_document file (with_convert env c') w = parse_document file env w) /\
  (forall data,
     (forall content fn,
        Base64.b64decode (default (PStr "") (data !! "content")) = Val content ->
        default (PStr "document.pdf") (data !! "filename") = PStr fn ->
        c' configured_converter (tmp_stem env +:+ base64_extension fn) (Some content) =
        convert env configured_converter (tmp_stem env +:+ base64_extension fn)
          (Some content)) ->
     parse_document_base64 data (with_convert env c') w =
     parse_document_base64 data env w).
Proof.
  split; [intros file; apply parse_document_convert_point
         | intros data; apply parse_document_base64_convert_point].
Qed.

Lemma converter_consulted_at_one_point_witness :
  parse_document pdf_upload (with_convert env_ok picky_convert) (fresh_world ∅) =
  parse_document pdf_upload env_ok (fresh_world ∅).
Proof.
  destruct (converter_consulted_at_one_point env_ok (fresh_world ∅) picky_convert)
    as [Hparse _].
  apply (Hparse pdf_upload). vm_compute. reflexivity.
Defined.

(** ** The order of the calls *)

Lemma parse_document_call_order env f file :
  let l := calls (parse_document file env (fresh_world f)).2 in
  (forall p o, In (EvConvert p, o) l ->
     In (EvWrite p (body file), None) l /\ In (EvGetConverter, None) l) /\
  (forall o, In (EvExport, o) l -> exists p, In (EvConvert p, None) l) /\
  (forall p o, In (EvUnlink p, o) l ->
     In (EvCreate p, None) l /\ In (EvWrite p (body file), None) l).
Proof.
  run_cases; (split; [|split]); intros; in_log;
    repeat match goal with
    | H : (_, _) = (_, _) |- _ => injection H as <-
    | H : (_, _) = (_, _) |- _ => injection H as <- _
    | H : (_, _) = (_, _) |- _ => injection H as _
    end;
    try (eexists; cbn; auto 10; fail); (split; cbn; auto 10).
Qed.

Lemma parse_document_base64_call_order env f data :
  let l := calls (parse_document_base64 data env (fresh_world f)).2 in
  (forall p o, In (EvConvert p, o) l ->
     (exists content,
        Base64.b64decode (default (PStr "") (data !! "content")) = Val content /\
        In (EvWrite p content, None) l) /\
     In (EvGetConverter, None) l) /\
  (forall o, In (EvExport, o) l -> exists p, In (EvConvert p, None) l) /\
  (forall p o, In (EvUnlink p, o) l ->
     In (EvCreate p, None) l /\ exists content, In (EvWrite p content, None) l).
Proof.
  run_cases; (split; [|split]); intros; in_log;
    repeat match goal with
    | H : (_, _) = (_, _) |- _ => injection H as <-
    | H : (_, _) = (_, _) |- _ => injection H as <- _
    | H : (_, _) = (_, _) |- _ => injection H as _
    end;
    try (eexists; cbn; auto 10; fail);
    (split; [try (eexists; split; [reflexivity|]); cbn; auto 10
            | try eexists; cbn; auto 10]).
Qed.

(** X10. The calls of a request come in a fixed order.  The converter is
    only asked once the whole payload has been written to that very path
    and the converter has been built; export is only called on a document
    convert returned; os.unlink is only called on the file this request
    created and wrote. *)
Theorem calls_in_order (env : Env) (f : gmap string (list Z)) :
  (forall file,
     let l := calls (parse_document file env (fresh_world f)).2 in
     (forall p o, In (EvConvert p, o) l ->
        In (EvWrite p (body file), None) l /\ In (EvGetConverter, None) l) /\
     (forall o, In (EvExport, o) l -> exists p, In (EvConvert p, None) l) /\
     (forall p o, In (EvUnlink p, o) l ->
        In (EvCreate p, None) l /\ In (EvWrite p (body file), None) l)) /\
  (forall data,
     let l := calls (parse_document_base64 data env (fresh_world f)).2 in
     (forall p o, In (EvConvert p, o) l ->
        (exists content,
           Base64.b64decode (default (PStr "") (data !! "content")) = Val content /\
           In (EvWrite p content, None) l) /\
        In (EvGetConverter, None) l) /\
     (forall o, In (EvExport, o) l -> exists p, In (EvConvert p, None) l) /\
     (forall p o, In (EvUnlink p, o) l ->
        In (EvCreate p, None) l /\ exists content, In (EvWrite p content, None) l)).
Proof.
  split; [intros file; apply parse_document_call_order
         | intros data; apply parse_document_base64_call_order].
Qed.

Lemma calls_in_order_witness :
  In (EvUnlink "/tmp/tmpk3f9a2.pdf", Some "[Errno 13] Permission denied")
     (calls (parse_document pdf_upload env_unlink_fails (fresh_world ∅)).2) /\
  In (EvWrite "/tmp/tmpk3f9a2.pdf" [37; 80; 68; 70], None)
     (calls (parse_document pdf_upload env_unlink_fails (fresh_world ∅)).2).
Proof.
  assert (Hin : In (EvUnlink "/tmp/tmpk3f9a2.pdf", Some "[Errno 13] Permission denied")
                   (calls (parse_document pdf_upload env_unlink_fails (fresh_world ∅)).2)).
  { log_mem. }
  split; [exact Hin|].
  destruct (calls_in_order env_unlink_fails ∅) as [Hparse _].
  destruct (Hparse pdf_upload) as (_ & _ & Hunlink).
  exact (proj2 (Hunlink _ _ Hin)).
Defined.

(** ** The shape of an extension *)

Lemma split_no_separator sep s :
  Forall (fun x => contains sep x = false) (Py.split sep s).
Proof.
  induction s as [|a r IH]; cbn.
  - repeat constructor.
  - destruct (Ascii.eqb a sep) eqn:Ha.
    + constructor; [reflexivity | exact IH].
    + destruct (Py.split sep r) as [|h t].
      * constructor; [cbn; rewrite Ha; reflexivity | constructor].
      * inversion IH as [|? ? Hh Ht]; subst.
        constructor; [cbn; rewrite Ha; exact Hh | exact Ht].
Qed.

Lemma last_Forall {A} (P : A -> Prop) (l : list A) (d : A) :
  Forall P l -> P d -> P (List.last l d).
Proof.
  intros Hl Hd. induction Hl as [|x l Hx Hl IH]; [exact Hd|].
  cbn. destruct l; [exact Hx | exact IH].
Qed.

Lemma name_no_slash s : contains "/" (Py.name s) = false.
Proof.
  unfold Py.name, Py.components.
  apply (last_Forall (fun x => contains "/" x = false)); [|reflexivity].
  apply List.Forall_forall. intros x Hx.
  apply List.filter_In in Hx as [Hx _].
  pose proof (split_no_separator "/" s) as Hs.
  rewrite List.Forall_forall in Hs. apply Hs, Hx.
Qed.

Lemma rfind_absent c s : Py.rfind c s < 0 -> contains c s = false.
Proof.
  induction s as [|a r IH]; cbn; [reflexivity|].
  destruct (0 <=? Py.rfind c r) eqn:Hi; [lia|].
  destruct (Ascii.eqb a c); [lia|]. intros _. apply IH. lia.
Qed.

(** From the index [rfind] returns the string reads [c] followed by text
    without [c]. *)
Lemma rfind_slice c s :
  0 <= Py.rfind c s ->
  exists r, Py.slice_from (Z.to_nat (Py.rfind c s)) s = String c r /\
            contains c r = false /\
            Py.len s = Py.rfind c s + 1 + Py.len r.
Proof.
  unfold Py.len. induction s as [|a r IH]; cbn [Py.rfind]; [lia|].
  destruct (0 <=? Py.rfind c r) eqn:Hi.
  - intros _. destruct IH as (t & Ht & Hc & Hlen); [lia|].
    exists t. replace (Z.to_nat (1 + Py.rfind c r)) with (S (Z.to_nat (Py.rfind c r))) by lia.
    cbn [Py.slice_from String.length]. repeat split; [exact Ht | exact Hc | lia].
  - destruct (Ascii.eqb_spec a c) as [->|Hne]; [|lia].
    intros _. exists r. cbn [Z.to_nat Py.slice_from String.length].
    repeat split; [apply rfind_absent; lia | lia].
Qed.

Lemma contains_slice_from d k s :
  contains d s = false -> contains d (Py.slice_from k s) = false.
Proof.
  revert s. induction k as [|k IH]; intros s Hs; [exact Hs|].
  destruct s as [|a r]; [reflexivity|].
  cbn in Hs |- *. apply orb_false_iff in Hs as [_ Hs]. apply IH, Hs.
Qed.

(** [Path.suffix] is empty or a plain extension. *)
Lemma suffix_shape s : Py.suffix s = "" \/ plain_extension (Py.suffix s).
Proof.
  unfold Py.suffix.
  destruct ((0 <? Py.rfind "." (Py.name s)) &&
            (Py.rfind "." (Py.name s) <? Py.len (Py.name s) - 1)) eqn:Hc;
    [right | left; reflexivity].
  apply andb_true_iff in Hc as [H0 H1].
  apply Z.ltb_lt in H0, H1.
  destruct (rfind_slice "." (Py.name s)) as (r & Hr & Hdot & Hlen); [lia|].
  exists r. split; [exact Hr|]. split; [|split; [exact Hdot|]].
  - intros ->. unfold Py.len in Hlen at 2. cbn in Hlen. lia.
  - pose proof (contains_slice_from "/" (Z.to_nat (Py.rfind "." (Py.name s)))
                  (Py.name s) (name_no_slash s)) as Hs.
    rewrite Hr in Hs. cbn in Hs. exact Hs.
Qed.

Lemma lower_char_eqb_slash c : Ascii.eqb (Py.lower_char c) "/" = Ascii.eqb c "/".
Proof. destruct c as [[] [] [] [] [] [] [] []]; reflexivity. Qed.

Lemma lower_char_eqb_dot c : Ascii.eqb (Py.lower_char c) "." = Ascii.eqb c ".".
Proof. destruct c as [[] [] [] [] [] [] [] []]; reflexivity. Qed.

Lemma lower_char_idempotent c : Py.lower_char (Py.lower_char c) = Py.lower_char c.
Proof. destruct c as [[] [] [] [] [] [] [] []]; reflexivity. Qed.

Lemma lower_idempotent s : Py.lower (Py.lower s) = Py.lower s.
Proof.
  induction s as [|c r IH]; cbn; [reflexivity|].
  rewrite lower_char_idempotent, IH. reflexivity.
Qed.

Lemma contains_lower_slash s : contains "/" (Py.lower s) = contains "/" s.
Proof.
  induction s as [|c r IH]; cbn; [reflexivity|].
  rewrite lower_char_eqb_slash, IH. reflexivity.
Qed.

Lemma contains_lower_dot s : contains "." (Py.lower s) = contains "." s.
Proof.
  induction s as [|c r IH]; cbn; [reflexivity|].
  rewrite lower_char_eqb_dot, IH. reflexivity.
Qed.

Lemma plain_extension_lower e : plain_extension e -> plain_extension (Py.lower e).
Proof.
  intros (r & -> & Hne & Hdot & Hslash). exists (Py.lower r).
  split; [reflexivity|]. split; [|split].
  - destruct r; [contradiction | discriminate].
  - rewrite contains_lower_dot. exact Hdot.
  - rewrite contains_lower_slash. exact Hslash.
Qed.

Lemma plain_extension_pdf : plain_extension ".pdf".
Proof. exists "pdf". repeat split. discriminate. Qed.

Lemma base64_extension_plain fn :
  plain_extension (base64_extension fn) /\
  Py.lower (base64_extension fn) = base64_extension fn.
Proof.
  unfold base64_extension.
  destruct (String.eqb_spec (Py.suffix fn) "") as [_|Hne].
  - split; [apply plain_extension_pdf | reflexivity].
  - destruct (suffix_shape fn) as [H|H]; [contradiction|].
    split; [apply plain_extension_lower, H | apply lower_idempotent].
Qed.

Lemma upload_extension_plain ct fn : plain_extension (upload_extension ct fn).
Proof.
  unfold upload_extension.
  repeat match goal with
  | |- context [String.eqb ct ?k] => destruct (String.eqb ct k)
  end; try (eexists; repeat split; discriminate).
  destruct (String.eqb_spec (Py.suffix fn) "") as [_|Hne];
    [apply plain_extension_pdf|].
  destruct (suffix_shape fn) as [H|H]; [contradiction | exact H].
Qed.

(** X11. Whatever filename and content type the client sends, the name of
    the transient file is the generated name followed by one plain
    extension: a dot and at least one further character, none of them a dot
    or a path separator.  For /parse-base64 the extension is in lower case
    as well. *)
Theorem transient_name_is_plain (env : Env) (f : gmap string (list Z)) (p : string) :
  (forall file,
     In (EvCreate p, None) (calls (parse_document file env (fresh_world f)).2) ->
     exists e, p = tmp_stem env +:+ e /\ plain_extension e) /\
  (forall data,
     In (EvCreate p, None) (calls (parse_document_base64 data env (fresh_world f)).2) ->
     exists e, p = tmp_stem env +:+ e /\ plain_extension e /\ Py.lower e = e).
Proof.
  split.
  - intros file Hc.
    exists (upload_extension (Py.or_empty (content_type file)) (Py.or_empty (filename file))).
    split; [|apply upload_extension_plain].
    revert Hc. rewrite <- upload_extension_spec.
    run_cases; intros Hc; in_log; injection Hc as <-; reflexivity.
  - intros data. run_cases; intros Hc; in_log; injection Hc as <-.
    all: rewrite base64_extension_spec; eexists; split; [reflexivity|].
    all: apply base64_extension_plain.
Qed.

Lemma transient_name_is_plain_witness :
  In (EvCreate "/tmp/tmpk3f9a2.gz", None)
     (calls (parse_document_base64 (b64_request "aGk=" "../../etc/Backup.tar.GZ") env_ok
               (fresh_world ∅)).2) /\
  exists e, "/tmp/tmpk3f9a2.gz" = tmp_stem env_ok +:+ e /\ plain_extension e /\ Py.lower e = e.
Proof.
  assert (Hin : In (EvCreate "/tmp/tmpk3f9a2.gz", None)
    (calls (parse_document_base64 (b64_request "aGk=" "../../etc/Backup.tar.GZ") env_ok
              (fresh_world ∅)).2)).
  { log_mem. }
  split; [exact Hin|].
  exact (proj2 (transient_name_is_plain env_ok ∅ "/tmp/tmpk3f9a2.gz") _ Hin).
Defined.

(** ** The base64 text *)

Lemma a2b_loop_skip c rest q l pc acc :
  skipped_by_decoder c = true ->
  Base64.a2b_loop (c :: rest) q l pc acc = Base64.a2b_loop rest q l pc acc.
Proof.
  unfold skipped_by_decoder. intros H.
  apply andb_true_iff in H as [H Htab]. apply andb_true_iff in H as [_ Hpad].
  apply negb_true_iff in Hpad.
  cbn [Base64.a2b_loop]. rewrite Hpad. cbv zeta. rewrite Htab. reflexivity.
Qed.

Lemma a2b_loop_filter data :
  forall q l pc acc,
    Base64.a2b_loop (List.filter (fun c => negb (skipped_by_decoder c)) data) q l pc acc =
    Base64.a2b_loop data q l pc acc.
Proof.
  induction data as [|c rest IH]; intros q l pc acc; [reflexivity|].
  cbn [List.filter]. destruct (skipped_by_decoder c) eqn:Hs; cbn [negb].
  - rewrite (a2b_loop_skip c rest q l pc acc Hs). apply IH.
  - cbn [Base64.a2b_loop]. cbv zeta.
    repeat match goal with
    | |- context [if ?b then _ else _] => destruct b
    end; try reflexivity; apply IH.
Qed.

Lemma codes_without_skipped s :
  Py.codes (without_skipped s) =
  List.filter (fun c => negb (skipped_by_decoder c)) (Py.codes s).
Proof.
  induction s as [|c r IH]; [reflexivity|].
  cbn [without_skipped Py.codes List.filter].
  destruct (skipped_by_decoder _); cbn [negb Py.codes]; rewrite IH; reflexivity.
Qed.

Lemma ascii_without_skipped s :
  forallb (fun c => c <? 128) (Py.codes (without_skipped s)) =
  forallb (fun c => c <? 128) (Py.codes s).
Proof.
  induction s as [|c r IH]; [reflexivity|].
  cbn [without_skipped Py.codes forallb].
  destruct (skipped_by_decoder _) eqn:Hs; cbn [Py.codes forallb]; rewrite IH.
  - unfold skipped_by_decoder in Hs.
    apply andb_true_iff in Hs as [Hs _]. apply andb_true_iff in Hs as [-> _]. reflexivity.
  - reflexivity.
Qed.

Lemma b64decode_without_skipped s :
  Base64.b64decode (PStr (without_skipped s)) = Base64.b64decode (PStr s).
Proof.
  unfold Base64.b64decode, Base64.a2b_base64.
  rewrite ascii_without_skipped, codes_without_skipped, a2b_loop_filter. reflexivity.
Qed.

(** X12. The base64 text may be wrapped or spaced: ASCII characters
    outside the base64 alphabet other than the padding sign (line breaks,
    blanks, punctuation) are skipped by the decoder, so /parse-base64 runs
    exactly as it does on the text without them. *)
Theorem base64_text_may_be_wrapped (env : Env) (w : World) (data : gmap string pyval)
    (s : string) :
  Base64.b64decode (PStr s) = Base64.b64decode (PStr (without_skipped s)) /\
  parse_document_base64 (<["content" := PStr s]> data) env w =
  parse_document_base64 (<["content" := PStr (without_skipped s)]> data) env w.
Proof.
  split; [symmetry; apply b64decode_without_skipped|].
  unfold parse_document_base64.
  rewrite !lookup_insert_eq, !lookup_insert_ne by discriminate.
  cbn [from_option id]. rewrite b64decode_without_skipped. reflexivity.
Qed.

Lemma a2b_loop_length data :
  forall q l pc acc out,
    Base64.a2b_loop data q l pc acc = Val out ->
    4 * Z.of_nat (List.length out) <=
    4 * Z.of_nat (List.length acc) + 3 * Z.of_nat (List.length data) + quad_credit q.
Proof.
  induction data as [|c rest IH]; intros q l pc acc out.
  - cbn. unfold Base64.end_of_data, quad_credit.
    destruct (q =? 0); [intros [= <-]; lia|]. destruct (q =? 1); discriminate.
  - cbn [Base64.a2b_loop]. cbv zeta. cbn [List.length].
    repeat match goal with
    | |- context [if ?b then _ else _] => destruct b eqn:?
    end;
      try (intros [= <-]; unfold quad_credit; repeat case_match; lia);
      intros Hrun; apply IH in Hrun; rewrite ?length_app in Hrun; cbn [List.length] in Hrun;
      unfold quad_credit in *;
      repeat match goal with
      | H : (_ =? _) = true |- _ => apply Z.eqb_eq in H
      | H : (_ =? _) = false |- _ => apply Z.eqb_neq in H
      end; subst; cbn in Hrun |- *; repeat case_match; lia.
Qed.

Lemma b64decode_length s out :
  Base64.b64decode (PStr s) = Val out ->
  4 * Z.of_nat (List.length out) <= 3 * Z.of_nat (String.length s).
Proof.
  cbn. destruct (forallb _ _); [|discriminate].
  intros H. apply a2b_loop_length in H. cbn in H.
  assert (Hlen : List.length (Py.codes s) = String.length s).
  { clear. induction s; cbn; congruence. }
  rewrite Hlen in H. lia.
Qed.

Lemma b64decode_Val_str v out : Base64.b64decode v = Val out -> exists s, v = PStr s.
Proof. destruct v; try discriminate. eauto. Qed.

Lemma base64_payload env f data p content o :
  In (EvWrite p content, o) (calls (parse_document_base64 data env (fresh_world f)).2) ->
  exists s, default (PStr "") (data !! "content") = PStr s /\
            Base64.b64decode (PStr s) = Val content.
Proof.
  run_cases; intros Hw; in_log; injection Hw as _ <- _.
  all: match goal with
       | H : Base64.b64decode _ = Val _ |- _ =>
           destruct (b64decode_Val_str _ _ H) as [t Ht]; rewrite Ht in H |- *;
           exists t; split; [reflexivity | exact H]
       end.
Qed.

(** X13. What /parse-base64 writes to disk is bounded by the request: the
    payload consists of bytes (0 to 255) and is at most three quarters as
    long as the base64 text it was decoded from. *)
Theorem base64_payload_bounded (env : Env) (f : gmap string (list Z))
    (data : gmap string pyval) (p : string) (content : list Z) (o : option string) :
  In (EvWrite p content, o) (calls (parse_document_base64 data env (fresh_world f)).2) ->
  exists s, default (PStr "") (data !! "content") = PStr s /\
            Forall (fun b => 0 <= b < 256) content /\
            4 * Z.of_nat (List.length content) <= 3 * Z.of_nat (String.length s).
Proof.
  intros Hw. destruct (base64_payload env f data p content o Hw) as (s & Hs & Hdec).
  exists s. split; [exact Hs|]. split.
  - exact (b64decode_bytes _ _ Hdec).
  - exact (b64decode_length _ _ Hdec).
Qed.

Lemma base64_payload_bounded_witness :
  In (EvWrite "/tmp/tmpk3f9a2.pdf" [104; 105], None)
     (calls (parse_document_base64 wrapped_request env_ok (fresh_world ∅)).2) /\
  exists s, default (PStr "") (wrapped_request !! "content") = PStr s /\
            Forall (fun b => 0 <= b < 256) [104; 105] /\
            4 * Z.of_nat (List.length [104; 105]) <= 3 * Z.of_nat (String.length s).
Proof.
  assert (Hin : In (EvWrite "/tmp/tmpk3f9a2.pdf" [104; 105], None)
                   (calls (parse_document_base64 wrapped_request env_ok (fresh_world ∅)).2)).
  { log_mem. }
  split; [exact Hin|].
  exact (base64_payload_bounded env_ok ∅ wrapped_request _ _ _ Hin).
Defined.

(** ** Fields of the wrong type *)

(** X14. A filename that is present but not a string (a number, a list,
    null: the default only stands in for a missing key) makes /parse-base64
    fail in-band at the construction of the path, after the decoding and
    before any file is created: the response carries the TypeError's
    message and the file system is left as it was. *)
Theorem non_string_filename_fails_early (env : Env) (w : World)
    (data : gmap string pyval) (v : pyval) (content : list Z) :
  (forall s, v <> PStr s) ->
  Base64.b64decode (default (PStr "") (data !! "content")) = Val content ->
  data !! "filename" = Some v ->
  exists msg,
    Path v = Err msg /\
    parse_document_base64 data env w =
      (Return (failure msg),
       {| fs := fs w; calls := (calls w ++ [(EvDecode, None); (EvPath, Some msg)])%list |}).
Proof.
  intros Hv Hdec Hf. unfold_run. rewrite Hdec, Hf. unfold_run. cbn [from_option id].
  destruct v; try (exfalso; eapply Hv; reflexivity); cbn;
    (eexists; split; [reflexivity|]); rewrite <- ?app_assoc; reflexivity.
Qed.

Lemma non_string_filename_fails_early_witness :
  exists msg,
    Path (PInt 7) = Err msg /\
    parse_document_base64 numeric_filename_request env_ok (fresh_world ∅) =
      (Return (failure msg),
       {| fs := ∅; calls := [(EvDecode, None); (EvPath, Some msg)] |}).
Proof.
  assert (Hv : forall s, PInt 7 <> PStr s) by discriminate.
  apply (non_string_filename_fails_early env_ok (fresh_world ∅) numeric_filename_request
           (PInt 7) [104; 105] Hv); vm_compute; reflexivity.
Defined.
